(** * Resume template generator: a shallow embedding and its properties

    The development follows [resume_template_generator.py] (the template
    compositor) and the part of [process_resume.py] that drives it.

    - Python [str] values are lists of Unicode code points.
    - JSON field values are the dynamically typed [pyval].
    - The worksheet is a grid of cells (value and style attributes) with a
      list of merged ranges; the generator object is the worksheet plus its
      [row_offset] counter, threaded through an exception monad. *)

From Stdlib Require Import ZArith NArith List Bool Lia String Ascii DecimalString.
From stdpp Require Import base option list gmap strings.

Set Default Proof Using "Type".
#[local] Set Warnings "-clear-no-such-hyp".
Open Scope Z_scope.

(** ** Python strings *)

Module PyStr.

(** A Python [str]: a sequence of code points. *)
Definition pystr := list N.

Fixpoint utf8_decode (bs : list N) : list N :=
  match bs with
  | [] => []
  | b0 :: t0 =>
    if (b0 <? 128)%N then b0 :: utf8_decode t0
    else match t0 with
    | [] => []
    | b1 :: t1 =>
      if (b0 <? 224)%N then ((b0 - 192) * 64 + (b1 - 128))%N :: utf8_decode t1
      else match t1 with
      | [] => []
      | b2 :: t2 =>
        if (b0 <? 240)%N
        then ((b0 - 224) * 4096 + (b1 - 128) * 64 + (b2 - 128))%N :: utf8_decode t2
        else match t2 with
        | [] => []
        | b3 :: t3 =>
          ((b0 - 240) * 262144 + (b1 - 128) * 4096 + (b2 - 128) * 64 + (b3 - 128))%N
            :: utf8_decode t3
        end
      end
    end
  end.

(** A source literal (UTF-8 bytes in the file) read as a Python string. *)
Definition py (s : string) : pystr :=
  utf8_decode (map N_of_ascii (list_ascii_of_string s)).
Arguments py s%_string.

(** [str.isspace]: the characters removed by [str.strip()]. *)
Definition py_isspace (c : N) : bool :=
  ((9 <=? c) && (c <=? 13) || (28 <=? c) && (c <=? 32) || (c =? 133) || (c =? 160)
   || (c =? 5760) || (8192 <=? c) && (c <=? 8202) || (c =? 8232) || (c =? 8233)
   || (c =? 8239) || (c =? 8287) || (c =? 12288))%N.

(** The decimal digits of Unicode (general category Nd, Unicode 14.0 as
    shipped with CPython 3.11): the class [\d] of a [str] pattern. *)
Definition Nd_ranges : list (N * N) :=
  [(48, 57); (1632, 1641); (1776, 1785); (1984, 1993); (2406, 2415);
   (2534, 2543); (2662, 2671); (2790, 2799); (2918, 2927); (3046, 3055);
   (3174, 3183); (3302, 3311); (3430, 3439); (3558, 3567); (3664, 3673);
   (3792, 3801); (3872, 3881); (4160, 4169); (4240, 4249); (6112, 6121);
   (6160, 6169); (6470, 6479); (6608, 6617); (6784, 6793); (6800, 6809);
   (6992, 7001); (7088, 7097); (7232, 7241); (7248, 7257); (42528, 42537);
   (43216, 43225); (43264, 43273); (43472, 43481); (43504, 43513);
   (43600, 43609); (44016, 44025); (65296, 65305); (66720, 66729);
   (68912, 68921); (69734, 69743); (69872, 69881); (69942, 69951);
   (70096, 70105); (70384, 70393); (70736, 70745); (70864, 70873);
   (71248, 71257); (71360, 71369); (71472, 71481); (71904, 71913);
   (72016, 72025); (72784, 72793); (73040, 73049); (73120, 73129);
   (92768, 92777); (92864, 92873); (93008, 93017); (120782, 120831);
   (123200, 123209); (123632, 123641); (125264, 125273); (130032, 130041)]%N.

Definition is_decimal (c : N) : bool :=
  existsb (fun r => (fst r <=? c) && (c <=? snd r))%N Nd_ranges.

Fixpoint lstrip (s : pystr) : pystr :=
  match s with
  | [] => []
  | c :: t => if py_isspace c then lstrip t else s
  end.

Definition rstrip (s : pystr) : pystr := rev (lstrip (rev s)).

(** [s.strip()] *)
Definition strip (s : pystr) : pystr := rstrip (lstrip s).

(** [s.split(sep)] for a one-character separator. *)
Fixpoint split_on (sep : N) (s : pystr) : list pystr :=
  match s with
  | [] => [[]]
  | c :: t =>
    if (c =? sep)%N then [] :: split_on sep t
    else match split_on sep t with
         | h :: r => (c :: h) :: r
         | [] => [[c]]
         end
  end.

(** [s.zfill(width)] *)
Definition zfill (width : nat) (s : pystr) : pystr :=
  if (width <=? length s)%nat then s
  else
    let pad := repeat 48%N (width - length s) in
    match s with
    | c :: t => if ((c =? 43) || (c =? 45))%N then c :: pad ++ t else pad ++ s
    | [] => pad
    end.

(** [sep.join(parts)] *)
Fixpoint join (sep : pystr) (parts : list pystr) : pystr :=
  match parts with
  | [] => []
  | [p] => p
  | p :: rest => p ++ sep ++ join sep rest
  end.

Fixpoint is_prefix (p s : pystr) : bool :=
  match p, s with
  | [], _ => true
  | a :: p', b :: s' => (a =? b)%N && is_prefix p' s'
  | _ :: _, [] => false
  end.

(** [needle in s] on strings: substring test. *)
Fixpoint is_substring (needle s : pystr) : bool :=
  is_prefix needle s ||
  match s with
  | [] => false
  | _ :: t => is_substring needle t
  end.

(** [str(z)] for an integer. *)
Definition str_of_Z (z : Z) : pystr :=
  map N_of_ascii (list_ascii_of_string (NilZero.string_of_int (Z.to_int z))).

End PyStr.
Export PyStr.

(** ** The fragment of [re] used by the date normaliser *)

Module Re.

Inductive atom : Type :=
| Digits (lo hi : nat)   (* \d{lo,hi}, greedy *)
| Lit (c : N)            (* a literal character *)
| OptLit (c : N)         (* c? *)
| Eos.                   (* $ *)

Inductive item : Type :=
| Plain (a : atom)
| Group (a : atom).      (* ( a ) *)

Definition regex := list item.

Definition atom_of (it : item) : atom :=
  match it with Plain a | Group a => a end.

Fixpoint ndigits (hi : nat) (s : pystr) : nat :=
  match hi, s with
  | S hi', c :: t => if is_decimal c then S (ndigits hi' t) else 0%nat
  | _, _ => 0%nat
  end.

(** [countdown n lo] is n, n-1, ..., lo. *)
Fixpoint countdown (n lo : nat) : list nat :=
  if (n <? lo)%nat then []
  else match n with
       | O => [O]
       | S n' => n :: countdown n' lo
       end.

(** The remainders an atom can leave, in the order the backtracking
    matcher tries them. *)
Definition atom_alts (a : atom) (s : pystr) : list pystr :=
  match a with
  | Digits lo hi => map (fun k => drop k s) (countdown (ndigits hi s) lo)
  | Lit c =>
    match s with
    | x :: t => if (x =? c)%N then [t] else []
    | [] => []
    end
  | OptLit c =>
    match s with
    | x :: t => if (x =? c)%N then [t; s] else [s]
    | [] => [s]
    end
  | Eos =>
    match s with
    | [] => [s]
    | [10%N] => [s]      (* $ also matches before a final newline *)
    | _ => []
    end
  end.

Fixpoint first_some {A B} (f : A -> option B) (l : list A) : option B :=
  match l with
  | [] => None
  | x :: r => match f x with Some y => Some y | None => first_some f r end
  end.

(** [re.match(p, s)]: [Some groups] on success. *)
Fixpoint re_match (p : regex) (s : pystr) : option (list pystr) :=
  match p with
  | [] => Some []
  | it :: p' =>
    first_some
      (fun t =>
         match re_match p' t with
         | Some gs =>
           Some (match it with
                 | Group _ => take (length s - length t) s :: gs
                 | Plain _ => gs
                 end)
         | None => None
         end)
      (atom_alts (atom_of it) s)
  end.

End Re.
Export Re.

(** ** Python values and exceptions *)

(** The values a JSON field of the parsed record can hold: [null], a
    boolean, an integer, a string, or a list of strings. *)
Inductive pyval : Type :=
| VNone
| VBool (b : bool)
| VInt (z : Z)
| VStr (s : pystr)
| VList (l : list pystr).

(** Exceptions carry the text [str(e)] reports. *)
Inductive exn : Type :=
| AttributeError (msg : pystr)
| TypeError (msg : pystr)
| ValueError (msg : pystr)
| IndexError (msg : pystr)
| OtherError (msg : pystr).

Definition exn_str (e : exn) : pystr :=
  match e with
  | AttributeError m | TypeError m | ValueError m | IndexError m | OtherError m => m
  end.

Inductive result (A : Type) : Type :=
| Ok (a : A)
| Raise (e : exn).
Arguments Ok {A} a.
Arguments Raise {A} e.

#[global] Instance result_ret : MRet result := fun _ a => Ok a.
#[global] Instance result_bind : MBind result := fun _ _ f m =>
  match m with
  | Ok a => f a
  | Raise e => Raise e
  end.

(** [try: m except: pass] *)
Definition try_pass {S : Type} (m : S -> result S) (s : S) : S :=
  match m s with
  | Ok s' => s'
  | Raise _ => s
  end.

#[global] Instance pyval_eq_dec : EqDecision pyval.
Proof. solve_decision. Defined.

(** [bool(v)] *)
Definition truthy (v : pyval) : bool :=
  match v with
  | VNone => false
  | VBool b => b
  | VInt z => negb (z =? 0)
  | VStr s => negb (bool_decide (s = []))
  | VList l => negb (bool_decide (l = []))
  end.

(** [v == w]: a boolean equals the integer 0 or 1; otherwise values of
    different types differ. *)
Definition py_eqb (v w : pyval) : bool :=
  match v, w with
  | VBool b, VInt z | VInt z, VBool b => z =? (if b then 1 else 0)
  | _, _ => bool_decide (v = w)
  end.

(** [isinstance(v, list)] and [isinstance(v, bool)] *)
Definition is_list (v : pyval) : bool :=
  match v with VList _ => true | _ => false end.
Definition is_bool (v : pyval) : bool :=
  match v with VBool _ => true | _ => false end.

(** [type(v).__name__] *)
Definition type_name (v : pyval) : pystr :=
  match v with
  | VNone => py "NoneType"
  | VBool _ => py "bool"
  | VInt _ => py "int"
  | VStr _ => py "str"
  | VList _ => py "list"
  end.

(** [needle in v]: substring of a string, element of a list; a
    [TypeError] for a value that is not iterable. *)
Definition py_in (needle : pystr) (v : pyval) : result bool :=
  match v with
  | VStr s => Ok (is_substring needle s)
  | VList l => Ok (bool_decide (needle ∈ l))
  | _ => Raise (TypeError (py "argument of type '" ++ type_name v ++ py "' is not iterable"))
  end.

(** A dictionary with string keys; [d.get(k)] and [d.get(k, dflt)]. *)
Abbreviation dict := (gmap string pyval).

Definition dict_get (d : dict) (k : string) : pyval := default VNone (d !! k).
Definition dict_get_default (d : dict) (k : string) (dflt : pyval) : pyval :=
  default dflt (d !! k).
Arguments dict_get d k%_string.
Arguments dict_get_default d k%_string dflt.

(** [bool(d)] for a dictionary. *)
Definition dict_truthy (d : dict) : bool := negb (bool_decide (d = ∅)).

(** ** The date normaliser *)

Module DatePatterns.
Definition hyphen : N := 45.
Definition nian : N := Eval vm_compute in hd 0%N (py "年").
Definition yue : N := Eval vm_compute in hd 0%N (py "月").
Definition ri : N := Eval vm_compute in hd 0%N (py "日").

(* ^\d{4}-\d{2}-\d{2}$ *)
Definition ymd : regex :=
  [Plain (Digits 4 4); Plain (Lit hyphen); Plain (Digits 2 2);
   Plain (Lit hyphen); Plain (Digits 2 2); Plain Eos].
(* ^\d{4}-\d{2}$ *)
Definition ym : regex :=
  [Plain (Digits 4 4); Plain (Lit hyphen); Plain (Digits 2 2); Plain Eos].
(* ^\d{4}-\d{1}$ *)
Definition ym1 : regex :=
  [Plain (Digits 4 4); Plain (Lit hyphen); Plain (Digits 1 1); Plain Eos].
(* ^\d{4}$ *)
Definition y : regex := [Plain (Digits 4 4); Plain Eos].
(* ^(\d{4})年(\d{1,2})月(\d{1,2})日?$ *)
Definition cn_ymd : regex :=
  [Group (Digits 4 4); Plain (Lit nian); Group (Digits 1 2); Plain (Lit yue);
   Group (Digits 1 2); Plain (OptLit ri); Plain Eos].
(* ^(\d{4})年(\d{1,2})月$ *)
Definition cn_ym : regex :=
  [Group (Digits 4 4); Plain (Lit nian); Group (Digits 1 2); Plain (Lit yue);
   Plain Eos].
End DatePatterns.

(** [parts[i]] *)
Definition index {A} (l : list A) (i : nat) : result A :=
  match l !! i with
  | Some x => Ok x
  | None => Raise (IndexError (py "list index out of range"))
  end.

(** The pattern tests of [_format_date], on the stripped text. *)
Definition match_date (date_str : pystr) : result pyval :=
  if re_match DatePatterns.ymd date_str is Some _ then Ok (VStr date_str)
  else if re_match DatePatterns.ym date_str is Some _ then Ok (VStr (date_str ++ py "-01"))
  else if re_match DatePatterns.ym1 date_str is Some _ then
    let parts := split_on DatePatterns.hyphen date_str in
    p0 ← index parts 0;
    p1 ← index parts 1;
    Ok (VStr (p0 ++ py "-0" ++ p1 ++ py "-01"))
  else if re_match DatePatterns.y date_str is Some _ then Ok (VStr (date_str ++ py "-01-01"))
  else match re_match DatePatterns.cn_ymd date_str with
  | Some [year; month; day] =>
    Ok (VStr (year ++ py "-" ++ zfill 2 month ++ py "-" ++ zfill 2 day))
  | Some _ => Raise (ValueError (py "wrong number of values to unpack"))
  | None =>
    match re_match DatePatterns.cn_ym date_str with
    | Some [year; month] => Ok (VStr (year ++ py "-" ++ zfill 2 month ++ py "-01"))
    | Some _ => Raise (ValueError (py "wrong number of values to unpack"))
    | None => Ok (VStr date_str)
    end
  end.

(** [_format_date(date_str)].  A falsy argument of any type returns
    [None]; a truthy argument that is not a string has no [strip]. *)
Definition _format_date (date_str : pyval) : result pyval :=
  if negb (truthy date_str) then Ok VNone
  else match date_str with
  | VStr s =>
    if bool_decide (strip s = []) then Ok VNone
    else
      let date_str := strip s in
      match_date date_str
  | _ =>
    Raise (AttributeError (py "'" ++ type_name date_str ++ py "' object has no attribute 'strip'"))
  end.

(** ** The worksheet

    The spreadsheet library is not part of the repository; the generator
    uses it as a store, and that is what is modelled:
    - [ws.cell(row, column)] always yields a cell, a blank one where nothing
      was written; a cell has a value and six style attributes, and an
      assignment to one of them always succeeds;
    - [ws.insert_rows(idx, amount)] moves the cells at and below [idx] down
      and leaves the merged ranges where they are, which is why the generator
      unmerges before, or repairs merges and header texts after, an
      insertion;
    - [merge_cells] and [unmerge_cells] add and remove a range in
      [ws.merged_cells]; removing a range that is not merged raises.  The
      cells under a range are kept as ordinary cells: the generator unmerges
      the data rows it is about to write. *)

Module Sheet.

Record Font : Type := mkFont {
  font_name : option string;
  font_size : option Z;
  font_bold : bool;
  font_color : option string
}.

Record PatternFill : Type := mkFill {
  fill_type : option string;
  start_color : string;
  end_color : string
}.

Record Cell : Type := mkCell {
  value : pyval;
  font : Font;
  border : N;            (* the remaining attributes are opaque; 0 is the default *)
  fill : PatternFill;
  number_format : N;
  protection : N;
  alignment : N
}.

Definition default_font : Font := mkFont (Some "Calibri"%string) (Some 11) false None.
Definition default_fill : PatternFill := mkFill None "00000000" "00000000".
Definition blank_cell : Cell := mkCell VNone default_font 0 default_fill 0 0 0.

#[global] Instance Font_eq_dec : EqDecision Font.
Proof. solve_decision. Defined.
#[global] Instance PatternFill_eq_dec : EqDecision PatternFill.
Proof. solve_decision. Defined.

(** [cell.has_style]: some style attribute differs from the default. *)
Definition has_style (c : Cell) : bool :=
  negb (bool_decide (font c = default_font) && (border c =? 0)%N
        && bool_decide (fill c = default_fill) && (number_format c =? 0)%N
        && (protection c =? 0)%N && (alignment c =? 0)%N).

Definition set_value (v : pyval) (c : Cell) : Cell :=
  mkCell v (font c) (border c) (fill c) (number_format c) (protection c) (alignment c).
Definition set_fill (f : PatternFill) (c : Cell) : Cell :=
  mkCell (value c) (font c) (border c) f (number_format c) (protection c) (alignment c).
Definition set_font (f : Font) (c : Cell) : Cell :=
  mkCell (value c) f (border c) (fill c) (number_format c) (protection c) (alignment c).

(** The body of [_copy_row_style] for one cell: the six attributes of the
    source replace those of the target; the target keeps its value. *)
Definition copy_style (src tgt : Cell) : Cell :=
  mkCell (value tgt) (font src) (border src) (fill src) (number_format src)
         (protection src) (alignment src).

Record CellRange : Type := mkRange {
  min_row : Z;
  min_col : Z;
  max_row : Z;
  max_col : Z
}.

#[global] Instance CellRange_eq_dec : EqDecision CellRange.
Proof. solve_decision. Defined.

Record Worksheet : Type := mkSheet {
  cells : Z -> Z -> Cell;
  merged_cells : list CellRange
}.

(** [ws.cell(row=r, column=c)] *)
Definition cell (w : Worksheet) (r c : Z) : Cell := cells w r c.

(** An assignment to an attribute of [ws.cell(row=r, column=c)]. *)
Definition upd_cell (r c : Z) (f : Cell -> Cell) (w : Worksheet) : Worksheet :=
  mkSheet (fun r' c' => if (r' =? r) && (c' =? c) then f (cells w r' c') else cells w r' c')
          (merged_cells w).

(** [ws.insert_rows(idx, amount)] *)
Definition insert_rows (idx amount : Z) (w : Worksheet) : Worksheet :=
  mkSheet (fun r c =>
             if r <? idx then cells w r c
             else if r <? idx + amount then blank_cell
             else cells w (r - amount) c)
          (merged_cells w).

(** [ws.merge_cells(...)]: a range already merged is not added twice. *)
Definition merge_cells (mr : CellRange) (w : Worksheet) : Worksheet :=
  mkSheet (cells w)
          (if bool_decide (mr ∈ merged_cells w) then merged_cells w
           else merged_cells w ++ [mr]).

(** [ws.unmerge_cells(str(mr))]: a [ValueError] when the range is not merged. *)
Definition unmerge_cells (mr : CellRange) (w : Worksheet) : result Worksheet :=
  if bool_decide (mr ∈ merged_cells w)
  then Ok (mkSheet (cells w) (filter (fun x => x ≠ mr) (merged_cells w)))
  else Raise (ValueError (py "Cell range is not merged")).

(** [range(a, b)] *)
Definition py_range (a b : Z) : list Z := seqZ a (b - a).

End Sheet.
Export Sheet.

(** ** The generator *)

Definition HIGHLIGHT_FILL : PatternFill := mkFill (Some "solid"%string) "FFFF00" "FFFF00".
Definition HIGHLIGHT_FONT : Font := mkFont None None true (Some "FF0000"%string).

Definition PLACEHOLDER : pystr := Eval vm_compute in py "【待补充】".
Definition YES : pystr := Eval vm_compute in py "是".
Definition NO : pystr := Eval vm_compute in py "否".

Module RowPositions.
Definition NAME_SUPPLIER : Z := 3.
Definition PERSONAL_INFO_START : Z := 5.
Definition UNDERGRADUATE_START : Z := 14.
Definition GRADUATE_START : Z := 22.
Definition WORK_EXP_HEADER : Z := 31.
Definition WORK_EXP_DATA : Z := 33.
Definition PROJECT_EXP_HEADER : Z := 36.
Definition PROJECT_EXP_DATA : Z := 38.
Definition TECH_SKILLS_START : Z := 41.
End RowPositions.

(** The parsed resume: the top-level sections of the JSON object.  A
    missing section is the empty dictionary or list; [error] is the value
    under the top-level ["error"] key, when there is one. *)
Record resume : Type := mkResume {
  basic_info : dict;
  personal_info : dict;
  education : list dict;
  work_experience : list dict;
  project_experience : list dict;
  technical_skills : dict;
  error : option pystr
}.

(** The generator object: the active worksheet and [self.row_offset]. *)
Record Generator : Type := mkGen {
  ws : Worksheet;
  row_offset : Z
}.

(** [ResumeTemplateGenerator(template_path)] on a loaded template. *)
Definition init (template : Worksheet) : Generator := mkGen template 0.

(** A method that mutates the generator and may raise. *)
Definition step := Generator -> result Generator.

Definition and_then (f h : step) : step := fun g => g' ← f g; h g'.
Infix ">>" := and_then (at level 65, right associativity).

Definition on_ws (f : Worksheet -> Worksheet) : step :=
  fun g => Ok (mkGen (f (ws g)) (row_offset g)).

Fixpoint for_each {A} (l : list A) (body : A -> step) : step :=
  match l with
  | [] => fun g => Ok g
  | x :: r => body x >> for_each r body
  end.

(** [enumerate(l)] *)
Definition enumerate {A} (l : list A) : list (Z * A) :=
  zip (seqZ 0 (Z.of_nat (length l))) l.

Definition _get_actual_row (g : Generator) (base_row : Z) : Z :=
  base_row + row_offset g.

(** Placeholder text, highlight fill and highlight font. *)
Definition mark_missing (c : Cell) : Cell :=
  set_font HIGHLIGHT_FONT (set_fill HIGHLIGHT_FILL (set_value (VStr PLACEHOLDER) c)).

Definition highlight (c : Cell) : Cell :=
  set_font HIGHLIGHT_FONT (set_fill HIGHLIGHT_FILL c).

(** The branches of [_fill_cell] after the date step. *)
Definition write_field (v : pyval) (c : Cell) : Cell :=
  if bool_decide (v = VNone) || py_eqb v (VStr []) || py_eqb v (VList []) then
    mark_missing c
  else match v with
  | VList l =>
    let c := set_value (VStr (if truthy v then join (py "、") l else PLACEHOLDER)) c in
    if negb (truthy v) then highlight c else c
  | VBool b => set_value (VStr (if b then YES else NO)) c
  | VInt z => set_value (VStr (str_of_Z z)) c
  | VStr s => set_value (VStr s) c
  | VNone => set_value (VStr (py "None")) c
  end.

Definition _fill_cell (row col : Z) (v : pyval) (apply_offset is_date : bool) : step :=
  fun g =>
    let actual_row := if apply_offset then _get_actual_row g row else row in
    v ← (if is_date && truthy v then _format_date v else Ok v);
    on_ws (upd_cell actual_row col (write_field v)) g.

Definition copy_cell_style (source_row target_row col : Z) (w : Worksheet) : Worksheet :=
  let source_cell := cell w source_row col in
  if has_style source_cell
  then upd_cell target_row col (copy_style source_cell) w
  else w.

Definition _copy_row_style (source_row target_row num_cols : Z) (w : Worksheet) : Worksheet :=
  foldl (fun w col => copy_cell_style source_row target_row col w) w
        (py_range 1 (num_cols + 1)).

Definition add_offset (n : Z) : step :=
  fun g => Ok (mkGen (ws g) (row_offset g + n)).

Definition _insert_rows_with_style (start_row num_rows template_row : Z) : step :=
  if num_rows <=? 0 then fun g => Ok g
  else
    on_ws (insert_rows start_row num_rows) >>
    on_ws (fun w => foldl (fun w i => _copy_row_style (template_row + num_rows) (start_row + i) 15 w)
                          w (py_range 0 num_rows)) >>
    add_offset num_rows.

Definition fill_basic_info (data : resume) : step :=
  let basic_info := basic_info data in
  _fill_cell 3 2 (dict_get basic_info "name") true false >>
  _fill_cell 3 4 (dict_get basic_info "supplier") true false.

Definition fill_personal_info (data : resume) : step :=
  let personal := personal_info data in
  _fill_cell 5 2 (dict_get personal "id_card_number") true false >>
  _fill_cell 7 2 (dict_get personal "birth_date") true true >>
  _fill_cell 8 2 (dict_get personal "phone") true false >>
  _fill_cell 9 2 (dict_get personal "first_work_date") true true >>
  _fill_cell 10 2 (dict_get personal "first_it_work_date") true true >>
  _fill_cell 11 2 (dict_get personal "highest_education") true false >>
  _fill_cell 12 2 (dict_get personal "contract_level") true false.

Definition _fill_undergraduate (edu : dict) : step :=
  _fill_cell 14 2 (dict_get edu "enrollment_date") true true >>
  _fill_cell 14 4 (dict_get edu "university") true false >>
  _fill_cell 15 2 (dict_get edu "graduation_date") true true >>
  _fill_cell 15 4 (dict_get edu "major") true false >>
  _fill_cell 16 2 (dict_get edu "diploma_number") true false >>
  _fill_cell 17 2 (dict_get edu "diploma_verification_code") true false >>
  _fill_cell 19 2 (dict_get edu "degree_number") true false >>
  _fill_cell 20 2 (dict_get edu "degree_verification_code") true false.

Definition DOCTORATE : pystr := Eval vm_compute in py "博士".
Definition MASTER : pystr := Eval vm_compute in py "硕士".
Definition BACHELOR : pystr := Eval vm_compute in py "本科".
Definition DOCTORATE_TITLE : pystr := Eval vm_compute in py "博士学历".

Definition _fill_graduate (edu : dict) (degree_label : pystr) : step :=
  let base_row := 22 in
  (if bool_decide (degree_label = DOCTORATE)
   then fun g => on_ws (upd_cell (_get_actual_row g base_row) 1
                                 (set_value (VStr DOCTORATE_TITLE))) g
   else fun g => Ok g) >>
  _fill_cell (base_row + 1) 2 (dict_get edu "enrollment_date") true true >>
  _fill_cell (base_row + 1) 4 (dict_get edu "university") true false >>
  _fill_cell (base_row + 2) 2 (dict_get edu "graduation_date") true true >>
  _fill_cell (base_row + 2) 4 (dict_get edu "major") true false >>
  _fill_cell (base_row + 3) 2 (dict_get edu "diploma_number") true false >>
  _fill_cell (base_row + 4) 2 (dict_get edu "diploma_verification_code") true false >>
  _fill_cell (base_row + 6) 2 (dict_get edu "degree_number") true false >>
  _fill_cell (base_row + 7) 2 (dict_get edu "degree_verification_code") true false.

(** [for mr in list(ws.merged_cells.ranges): if cond(mr): collect], then
    [try: ws.unmerge_cells(str(mr)) except: pass] for each collected range. *)
Definition unmerge_where (cond : CellRange -> bool) (w : Worksheet) : Worksheet :=
  let merged_ranges_to_remove := filter (fun mr => cond mr = true) (merged_cells w) in
  foldl (fun w mr => try_pass (unmerge_cells mr) w) w merged_ranges_to_remove.

Module Labels.
Definition work_start : pystr := Eval vm_compute in py "工作开始日期（年月日）".
Definition work_end : pystr := Eval vm_compute in py "工作结束日期（年月日）".
Definition work_company : pystr := Eval vm_compute in py "单位名称".
Definition work_position : pystr := Eval vm_compute in py "岗位/职务".
Definition work_psbc : pystr := Eval vm_compute in py "是否邮储银行自主研发工作经验".
Definition enrollment : pystr := Eval vm_compute in py "入学时间".
Definition university : pystr := Eval vm_compute in py "毕业院校".
Definition graduation : pystr := Eval vm_compute in py "毕业时间".
Definition major : pystr := Eval vm_compute in py "专业".
Definition diploma_number : pystr := Eval vm_compute in py "毕业证编号".
Definition diploma_code : pystr := Eval vm_compute in py "毕业证学信网在线验证码".
Definition degree_number : pystr := Eval vm_compute in py "学位证编号".
Definition degree_code : pystr := Eval vm_compute in py "学位证学信网在线验证码".
End Labels.

Definition set_text (r c : Z) (s : pystr) : Worksheet -> Worksheet :=
  upd_cell r c (set_value (VStr s)).

(** The data loop of [_insert_doctoral_section]: the value is stored as it
    is, without [str()]. *)
Definition write_doctoral (v : pyval) (c : Cell) : Cell :=
  if bool_decide (v = VNone) || py_eqb v (VStr []) then mark_missing c
  else set_value v c.

(** The rows of [_insert_doctoral_section] up to the merge repair. *)
Definition doctoral_header_fix (work_exp_header_row : Z) (w : Worksheet) : Worksheet :=
  let w := unmerge_where
             (fun mr => (min_row mr =? work_exp_header_row)
                        && ((min_col mr =? 1) && (3 <=? max_col mr))) w in
  let w := merge_cells (mkRange work_exp_header_row 5 work_exp_header_row 6) w in
  let w := set_text work_exp_header_row 1 Labels.work_start w in
  let w := set_text work_exp_header_row 2 Labels.work_end w in
  let w := set_text work_exp_header_row 3 Labels.work_company w in
  let w := set_text work_exp_header_row 4 Labels.work_position w in
  set_text work_exp_header_row 5 Labels.work_psbc w.

Definition doctoral_labels (insert_row : Z) (w : Worksheet) : Worksheet :=
  let w := merge_cells (mkRange insert_row 1 insert_row 6) w in
  let w := set_text insert_row 1 DOCTORATE_TITLE w in
  let w := set_text (insert_row + 1) 1 Labels.enrollment w in
  let w := set_text (insert_row + 1) 3 Labels.university w in
  let w := set_text (insert_row + 2) 1 Labels.graduation w in
  let w := set_text (insert_row + 2) 3 Labels.major w in
  let w := set_text (insert_row + 3) 1 Labels.diploma_number w in
  let w := set_text (insert_row + 4) 1 Labels.diploma_code w in
  let w := set_text (insert_row + 6) 1 Labels.degree_number w in
  set_text (insert_row + 7) 1 Labels.degree_code w.

(** The insertion block of [_insert_doctoral_section]: the rows are
    inserted, the offset advanced, and the header row below the new block
    repaired. *)
Definition doctoral_insert_rows (insert_row num_rows work_exp_header_row : Z) : step :=
  on_ws (insert_rows insert_row num_rows) >>
  add_offset num_rows >>
  on_ws (doctoral_header_fix work_exp_header_row).

Definition _insert_doctoral_section (edu : dict) : step := fun g =>
  let insert_row := _get_actual_row g 31 in
  let num_rows := 9 in
  let work_exp_new_start := insert_row + num_rows in
  let work_exp_header_row := work_exp_new_start + 1 in
  (doctoral_insert_rows insert_row num_rows work_exp_header_row >>
   (let source_base := 22 in
    on_ws (fun w => foldl (fun w i => _copy_row_style (source_base + i) (insert_row + i) 15 w)
                          w (py_range 0 num_rows))) >>
   on_ws (doctoral_labels insert_row) >>
   (fun g =>
      enrollment_date ← _format_date (dict_get edu "enrollment_date");
      let university := dict_get edu "university" in
      graduation_date ← _format_date (dict_get edu "graduation_date");
      let major := dict_get edu "major" in
      let diploma_number := dict_get edu "diploma_number" in
      let diploma_code := dict_get edu "diploma_verification_code" in
      let degree_number := dict_get edu "degree_number" in
      let degree_code := dict_get edu "degree_verification_code" in
      let cells_data :=
        [(insert_row + 1, 2, enrollment_date);
         (insert_row + 1, 4, university);
         (insert_row + 2, 2, graduation_date);
         (insert_row + 2, 4, major);
         (insert_row + 3, 2, diploma_number);
         (insert_row + 4, 2, diploma_code);
         (insert_row + 6, 2, degree_number);
         (insert_row + 7, 2, degree_code)] in
      for_each cells_data
        (fun '(row, col, v) => on_ws (upd_cell row col (write_doctoral v))) g)) g.

(** The classification loop of [fill_education]. *)
Definition Slots : Type := option dict * option dict * option dict.

Definition classify_step (acc : Slots) (edu : dict) : result Slots :=
  let '(undergraduate, master, doctoral) := acc in
  let degree_type := dict_get_default edu "degree_type" (VStr []) in
  b ← py_in BACHELOR degree_type;
  if b : bool then Ok (Some edu, master, doctoral)
  else
    b ← py_in MASTER degree_type;
    if b : bool then Ok (undergraduate, Some edu, doctoral)
    else
      b ← py_in DOCTORATE degree_type;
      if b : bool then Ok (undergraduate, master, Some edu)
      else Ok acc.

Fixpoint classify_from (acc : Slots) (education_list : list dict) : result Slots :=
  match education_list with
  | [] => Ok acc
  | edu :: rest => acc' ← classify_step acc edu; classify_from acc' rest
  end.

Definition classify (education_list : list dict) : result Slots :=
  classify_from (None, None, None) education_list.

(** [bool(x)] where [x] is [None] or a dictionary. *)
Definition slot_truthy (o : option dict) : bool :=
  match o with
  | Some d => dict_truthy d
  | None => false
  end.

Definition fill_slots (slots : Slots) : step :=
  let '(undergraduate, master, doctoral) := slots in
  (if slot_truthy undergraduate
   then _fill_undergraduate (default ∅ undergraduate)
   else _fill_undergraduate ∅) >>
  (fun g =>
     '(g, doctoral) ←
       (if slot_truthy master then
          g' ← _fill_graduate (default ∅ master) MASTER g; Ok (g', doctoral)
        else if slot_truthy doctoral && negb (slot_truthy master) then
          g' ← _fill_graduate (default ∅ doctoral) DOCTORATE g; Ok (g', None)
        else Ok (g, doctoral));
     if slot_truthy doctoral && slot_truthy master
     then _insert_doctoral_section (default ∅ doctoral) g
     else Ok g).

Definition fill_education (data : resume) : step := fun g =>
  slots ← classify (education data);
  fill_slots slots g.

(** One iteration of the row loop of [fill_work_experience]. *)
Definition or_placeholder (v : pyval) : pyval :=
  if truthy v then v else VStr PLACEHOLDER.

Definition psbc_text (is_psbc : pyval) : pyval :=
  if bool_decide (is_psbc = VNone) then VStr PLACEHOLDER
  else VStr (if truthy is_psbc then YES else NO).

Definition highlight_if_placeholder (row col : Z) (w : Worksheet) : Worksheet :=
  if py_eqb (value (cell w row col)) (VStr PLACEHOLDER)
  then upd_cell row col highlight w
  else w.

Definition write_work_row (row : Z) (exp : dict) : step := fun g =>
  start_date ← _format_date (dict_get exp "start_date");
  end_date ← _format_date (dict_get exp "end_date");
  let company := dict_get exp "company" in
  let position := dict_get exp "position" in
  let is_psbc := dict_get exp "is_psbc_independent_dev" in
  on_ws (fun w =>
    let w := upd_cell row 1 (set_value (or_placeholder start_date)) w in
    let w := upd_cell row 2 (set_value (or_placeholder end_date)) w in
    let w := upd_cell row 3 (set_value (or_placeholder company)) w in
    let w := upd_cell row 4 (set_value (or_placeholder position)) w in
    let w := upd_cell row 5 (set_value (psbc_text is_psbc)) w in
    foldl (fun w col => highlight_if_placeholder row col w) w (py_range 1 6)) g.

(** The insertion block of [fill_work_experience] (under [extra_rows > 0]). *)
Definition work_insert_rows (data_start_row template_rows extra_rows : Z) : step :=
  let insert_position := data_start_row + template_rows in
  on_ws (insert_rows insert_position extra_rows) >>
  on_ws (fun w => foldl (fun w i => _copy_row_style data_start_row (insert_position + i) 15 w)
                        w (py_range 0 extra_rows)) >>
  add_offset extra_rows.

(** The merges removed from the data rows before they are written. *)
Definition work_unmerge_data (data_start_row num_items : Z) : Worksheet -> Worksheet :=
  unmerge_where
    (fun mr => (data_start_row <=? min_row mr)
               && (min_row mr <? data_start_row + num_items)
               && (2 <=? min_col mr) && (3 <=? max_col mr)).

(** The unused example rows are cleared. *)
Definition work_blank_unused (data_start_row num_items template_rows : Z)
    (w : Worksheet) : Worksheet :=
  foldl (fun w i =>
           let row := data_start_row + i in
           foldl (fun w col => upd_cell row col (set_value VNone) w) w (py_range 1 6))
        w (py_range num_items template_rows).

Definition fill_work_experience (data : resume) : step := fun g =>
  let work_exp := work_experience data in
  if bool_decide (work_exp = []) then Ok g
  else
    let data_start_row := _get_actual_row g 33 in
    let num_items := Z.of_nat (length work_exp) in
    let template_rows := 2 in
    let extra_rows := Z.max 0 (num_items - template_rows) in
    ((if 0 <? extra_rows
      then work_insert_rows data_start_row template_rows extra_rows
      else fun g => Ok g) >>
     on_ws (work_unmerge_data data_start_row num_items) >>
     for_each (enumerate work_exp)
       (fun '(i, exp) => write_work_row (data_start_row + i) exp) >>
     (if num_items <? template_rows
      then on_ws (work_blank_unused data_start_row num_items template_rows)
      else fun g => Ok g)) g.

(** One iteration of the row loop of [fill_project_experience]. *)
Definition write_project_row (row : Z) (exp : dict) : step := fun g =>
  start_date ← _format_date (dict_get exp "start_date");
  end_date ← _format_date (dict_get exp "end_date");
  let project_name := dict_get exp "project_name" in
  let description := dict_get exp "description" in
  let role := dict_get exp "role" in
  let is_psbc := dict_get exp "is_psbc_independent_dev" in
  on_ws (fun w =>
    let w := upd_cell row 1 (set_value (or_placeholder start_date)) w in
    let w := upd_cell row 2 (set_value (or_placeholder end_date)) w in
    let w := upd_cell row 3 (set_value (or_placeholder project_name)) w in
    let w := upd_cell row 4 (set_value (or_placeholder description)) w in
    let w := upd_cell row 5 (set_value (or_placeholder role)) w in
    let w := upd_cell row 6 (set_value (psbc_text is_psbc)) w in
    foldl (fun w col => highlight_if_placeholder row col w) w [1; 2; 3; 4; 5; 6]) g.

(** The insertion block of [fill_project_experience] (under
    [extra_rows > 0]): the merges at and below the insertion row are removed
    first. *)
Definition project_insert_rows (data_start_row template_rows extra_rows : Z) : step :=
  let insert_position := data_start_row + template_rows in
  on_ws (unmerge_where (fun mr => insert_position <=? min_row mr)) >>
  on_ws (insert_rows insert_position extra_rows) >>
  on_ws (fun w => foldl (fun w i => _copy_row_style data_start_row (insert_position + i) 15 w)
                        w (py_range 0 extra_rows)) >>
  add_offset extra_rows.

Definition fill_project_experience (data : resume) : step := fun g =>
  let project_exp := project_experience data in
  if bool_decide (project_exp = []) then Ok g
  else
    let data_start_row := _get_actual_row g 38 in
    let num_items := Z.of_nat (length project_exp) in
    let template_rows := 2 in
    let extra_rows := Z.max 0 (num_items - template_rows) in
    ((if 0 <? extra_rows
      then project_insert_rows data_start_row template_rows extra_rows
      else fun g => Ok g) >>
     for_each (enumerate project_exp)
       (fun '(i, exp) => write_project_row (data_start_row + i) exp)) g.

Definition fill_technical_skills (data : resume) : step :=
  let skills := technical_skills data in
  let base_row := 41 in
  _fill_cell (base_row + 1) 2 (dict_get skills "programming_languages") true false >>
  _fill_cell (base_row + 2) 2 (dict_get skills "skills") true false >>
  _fill_cell (base_row + 3) 2 (dict_get skills "certifications") true false.

(** [generate]: the six stages in order, then [wb.save]; the result is the
    saved worksheet. *)
Definition generate (resume_data : resume) (g : Generator) : result Worksheet :=
  g ← (fill_basic_info resume_data >>
       fill_personal_info resume_data >>
       fill_education resume_data >>
       fill_work_experience resume_data >>
       fill_project_experience resume_data >>
       fill_technical_skills resume_data) g;
  Ok (ws g).

(** ** The drivers

    [process_single_resume] and the generator's [main], over an explicit
    environment: the answers of the file system and of the two
    collaborators (text extraction and the remote parser), and the two
    output files of the record. *)

Record Env : Type := mkEnv {
  file_path : pystr;
  file_exists : bool;
  suffix : pystr;                              (* file_path.suffix.lower() *)
  json_path : pystr;
  excel_path : pystr;
  template_path : pystr;
  template : option Worksheet;                 (* None: no file at template_path *)
  extract_text_from_resume : result pystr;
  parse_resume_with_llm : pystr -> resume
}.

(** What is stored at [json_path] and at [excel_path]. *)
Record Files : Type := mkFiles {
  json_file : option resume;
  excel_file : option Worksheet
}.

Definition SUPPORTED_FORMATS : list pystr := [py ".pdf"; py ".docx"].

Definition process_single_resume (env : Env) (files : Files) : (bool * pystr) * Files :=
  if negb (file_exists env) then
    ((false, py "文件不存在: " ++ file_path env), files)
  else if negb (bool_decide (suffix env ∈ SUPPORTED_FORMATS)) then
    ((false, py "不支持的文件格式: " ++ suffix env ++ py "，支持的格式: "
               ++ join (py ", ") SUPPORTED_FORMATS), files)
  else match template env with
  | None => ((false, py "模板文件不存在: " ++ template_path env), files)
  | Some template =>
    (* try: *)
    match extract_text_from_resume env with
    | Raise e => ((false, py "处理出错: " ++ exn_str e), files)
    | Ok resume_text =>
      let parsed_data := parse_resume_with_llm env resume_text in
      match error parsed_data with
      | Some err => ((false, py "解析失败: " ++ err), files)
      | None =>
        let files := mkFiles (Some parsed_data) (excel_file files) in
        let generator := init template in
        match generate parsed_data generator with
        | Raise e => ((false, py "处理出错: " ++ exn_str e), files)
        | Ok saved =>
          ((true, py "处理完成！" ++ [10%N] ++ py "        JSON: " ++ json_path env
                    ++ [10%N] ++ py "        Excel: " ++ excel_path env),
           mkFiles (json_file files) (Some saved))
        end
      end
    end
  end.

(** The generator's own [main], from the point where the parsed JSON has
    been read: the line it prints about an error, and the file it saves. *)
Definition generator_main (resume_data : resume) (template : Worksheet)
    (excel : option Worksheet) : result (list pystr * option Worksheet) :=
  match error resume_data with
  | Some err => Ok ([py "❌ 解析数据包含错误: " ++ err], excel)
  | None =>
    saved ← generate resume_data (init template);
    Ok ([], Some saved)
  end.

(** ** Vocabulary of the statements *)

(** [n] decimal digits. *)
Definition digits (n : nat) (s : pystr) : Prop :=
  length s = n ∧ Forall (fun c => is_decimal c = true) s.

(** The canonical shape YYYY-MM-DD. *)
Definition canonical (s : pystr) : Prop :=
  ∃ y m d, digits 4 y ∧ digits 2 m ∧ digits 2 d ∧ s = y ++ py "-" ++ m ++ py "-" ++ d.

(** The recognised date forms.  The localized forms take a month and a day
    of one or two digits, and the day form may leave out the final 日. *)
Inductive recognized : pystr -> Prop :=
| rec_ymd y m d :
    digits 4 y -> digits 2 m -> digits 2 d ->
    recognized (y ++ py "-" ++ m ++ py "-" ++ d)
| rec_ym y m :
    digits 4 y -> digits 2 m -> recognized (y ++ py "-" ++ m)
| rec_ym1 y m :
    digits 4 y -> digits 1 m -> recognized (y ++ py "-" ++ m)
| rec_y y :
    digits 4 y -> recognized y
| rec_cn_ymd y m d tail :
    digits 4 y -> digits 1 m ∨ digits 2 m -> digits 1 d ∨ digits 2 d ->
    tail = [] ∨ tail = py "日" ->
    recognized (y ++ py "年" ++ m ++ py "月" ++ d ++ tail)
| rec_cn_ym y m :
    digits 4 y -> digits 1 m ∨ digits 2 m ->
    recognized (y ++ py "年" ++ m ++ py "月").

(** Blank text: empty or whitespace only. *)
Definition blank (s : pystr) : Prop := Forall (fun c => py_isspace c = true) s.

(** No pattern of the normaliser matches. *)
Definition unrecognized (s : pystr) : Prop :=
  Forall (fun p => re_match p s = None)
    [DatePatterns.ymd; DatePatterns.ym; DatePatterns.ym1; DatePatterns.y;
     DatePatterns.cn_ymd; DatePatterns.cn_ym].

(** An optional string as a Python value. *)
Definition of_optstr (o : option pystr) : pyval :=
  match o with
  | Some s => VStr s
  | None => VNone
  end.

(** The number of capturing groups of a pattern. *)
Fixpoint ngroups (p : regex) : nat :=
  match p with
  | [] => 0%nat
  | Group _ :: p' => S (ngroups p')
  | Plain _ :: p' => ngroups p'
  end.

(** A value that is [None] or a string. *)
Definition optstr (v : pyval) : Prop := ∃ o : option pystr, v = of_optstr o.

(** The normalised date, where the normaliser returns. *)
Definition date_text (v : pyval) : pyval :=
  match _format_date v with
  | Ok r => r
  | Raise _ => VNone
  end.

(** The highlight a row writer gives a cell that shows the placeholder. *)
Definition hl_if_placeholder (c : Cell) : Cell :=
  if py_eqb (value c) (VStr PLACEHOLDER) then highlight c else c.

(** A cell of a data row after the row is written: [Some t] for a column
    that receives the text [t], [None] for a column left alone. *)
Definition row_cell (text : option pyval) (x : Cell) : Cell :=
  match text with
  | Some t => hl_if_placeholder (set_value t x)
  | None => x
  end.

Definition work_text (exp : dict) (col : Z) : option pyval :=
  if col =? 1 then Some (or_placeholder (date_text (dict_get exp "start_date")))
  else if col =? 2 then Some (or_placeholder (date_text (dict_get exp "end_date")))
  else if col =? 3 then Some (or_placeholder (dict_get exp "company"))
  else if col =? 4 then Some (or_placeholder (dict_get exp "position"))
  else if col =? 5 then Some (psbc_text (dict_get exp "is_psbc_independent_dev"))
  else None.

Definition project_text (exp : dict) (col : Z) : option pyval :=
  if col =? 1 then Some (or_placeholder (date_text (dict_get exp "start_date")))
  else if col =? 2 then Some (or_placeholder (date_text (dict_get exp "end_date")))
  else if col =? 3 then Some (or_placeholder (dict_get exp "project_name"))
  else if col =? 4 then Some (or_placeholder (dict_get exp "description"))
  else if col =? 5 then Some (or_placeholder (dict_get exp "role"))
  else if col =? 6 then Some (psbc_text (dict_get exp "is_psbc_independent_dev"))
  else None.

(** The dates of a work or project entry are strings or [None]. *)
Definition dates_ok (exp : dict) : Prop :=
  optstr (dict_get exp "start_date") ∧ optstr (dict_get exp "end_date").

(** A cell of an inserted row once [_copy_row_style] has run from the
    source cell [src] of the same column. *)
Definition inserted_cell (src : Cell) (col : Z) : Cell :=
  if (1 <=? col) && (col <=? 15) && has_style src
  then copy_style src blank_cell
  else blank_cell.

(** A sheet with nothing on it. *)
Definition blank_sheet : Worksheet := mkSheet (fun _ _ => blank_cell) [].

(** The entry written on row [r] when the rows of [l] start at [first]. *)
Definition row_entry (l : list dict) (first r : Z) : option dict :=
  if first <=? r then l !! Z.to_nat (r - first) else None.

(** A value that [_fill_cell] shows as missing. *)
Definition missing (v : pyval) : Prop := v = VNone ∨ v = VStr [] ∨ v = VList [].

(** The row a [_fill_cell] call writes to. *)
Definition target_row (g : Generator) (row : Z) (apply_offset : bool) : Z :=
  if apply_offset then _get_actual_row g row else row.

(** The degree tiers, and the slot of the classification each one fills. *)
Inductive Tier : Type := Bachelor | Master | Doctorate.

#[global] Instance Tier_eq_dec : EqDecision Tier.
Proof. solve_decision. Defined.

(** The tests of the classification loop on one entry: the tier it is
    filed under, if any. *)
Definition tier_of (edu : dict) : result (option Tier) :=
  let degree_type := dict_get_default edu "degree_type" (VStr []) in
  b ← py_in BACHELOR degree_type;
  if b : bool then Ok (Some Bachelor)
  else
    b ← py_in MASTER degree_type;
    if b : bool then Ok (Some Master)
    else
      b ← py_in DOCTORATE degree_type;
      if b : bool then Ok (Some Doctorate) else Ok None.

Definition slot (t : Tier) (slots : Slots) : option dict :=
  let '(undergraduate, master, doctoral) := slots in
  match t with
  | Bachelor => undergraduate
  | Master => master
  | Doctorate => doctoral
  end.

Definition put (t : option Tier) (edu : dict) (slots : Slots) : Slots :=
  let '(undergraduate, master, doctoral) := slots in
  match t with
  | Some Bachelor => (Some edu, master, doctoral)
  | Some Master => (undergraduate, Some edu, doctoral)
  | Some Doctorate => (undergraduate, master, Some edu)
  | None => slots
  end.

(** An entry whose label can be tested (a string or a list). *)
Definition classifiable (edu : dict) : Prop := ∃ t, tier_of edu = Ok t.

(** The dates of an education entry are strings or [None]. *)
Definition edu_dates_ok (edu : dict) : Prop :=
  optstr (dict_get edu "enrollment_date") ∧ optstr (dict_get edu "graduation_date").

(** The value [_fill_cell] writes for a field once the date step is done. *)
Definition field_step (v : pyval) (is_date : bool) : pyval :=
  if is_date && truthy v then date_text v else v.

(** The data cells of the advanced-education block: row, column, key,
    and whether the field is a date. *)
Definition graduate_fields : list (Z * Z * string * bool) :=
  [(23, 2, "enrollment_date", true); (23, 4, "university", false);
   (24, 2, "graduation_date", true); (24, 4, "major", false);
   (25, 2, "diploma_number", false); (26, 2, "diploma_verification_code", false);
   (28, 2, "degree_number", false); (29, 2, "degree_verification_code", false)]%string.

(** The texts of the inserted doctorate block, rows counted from the
    first row of the block. *)
Definition doctoral_block_labels : list (Z * Z * pystr) :=
  [(0, 1, DOCTORATE_TITLE); (1, 1, Labels.enrollment); (1, 3, Labels.university);
   (2, 1, Labels.graduation); (2, 3, Labels.major); (3, 1, Labels.diploma_number);
   (4, 1, Labels.diploma_code); (6, 1, Labels.degree_number);
   (7, 1, Labels.degree_code)].

Definition doctoral_block_fields : list (Z * Z * string * bool) :=
  [(1, 2, "enrollment_date", true); (1, 4, "university", false);
   (2, 2, "graduation_date", true); (2, 4, "major", false);
   (3, 2, "diploma_number", false); (4, 2, "diploma_verification_code", false);
   (6, 2, "degree_number", false); (7, 2, "degree_verification_code", false)]%string.

(** The value the doctorate block shows for a field: dates go through
    the normaliser, and what [write_doctoral] takes for missing becomes the
    placeholder. *)
Definition doctoral_value (edu : dict) (key : string) (is_date : bool) : pyval :=
  let v := if is_date then date_text (dict_get edu key) else dict_get edu key in
  if bool_decide (v = VNone) || py_eqb v (VStr []) then VStr PLACEHOLDER else v.

(** The labels of the work-history column-header row. *)
Definition work_header_labels : list (Z * pystr) :=
  [(1, Labels.work_start); (2, Labels.work_end); (3, Labels.work_company);
   (4, Labels.work_position); (5, Labels.work_psbc)].

(** A template with the layout the generator expects around the work
    history: the section title on row 31, the column headers on row 32 with
    columns E and F merged, two example rows, and merged title rows further
    down. *)
Definition WORK_TITLE : pystr := Eval vm_compute in py "工作经历".

Definition sample_template : Worksheet :=
  let w := mkSheet (fun _ _ => blank_cell)
                   [mkRange 22 1 22 6; mkRange 32 5 32 6; mkRange 36 1 36 6;
                    mkRange 41 1 41 6; mkRange 42 2 42 6] in
  let w := set_text 31 1 WORK_TITLE w in
  let w := set_text 32 1 Labels.work_start w in
  let w := set_text 32 2 Labels.work_end w in
  let w := set_text 32 3 Labels.work_company w in
  let w := set_text 32 4 Labels.work_position w in
  let w := set_text 32 5 Labels.work_psbc w in
  let w := upd_cell 33 1 (set_fill (mkFill (Some "solid"%string) "DDDDDD" "DDDDDD")) w in
  let w := set_text 33 1 (py "YYYY-MM-DD") w in
  let w := set_text 34 1 (py "YYYY-MM-DD") w in
  let w := set_text 38 1 (py "YYYY-MM-DD") w in
  set_text 39 1 (py "YYYY-MM-DD") w.

Definition empty_resume : resume := mkResume ∅ ∅ [] [] [] ∅ None.

(** A record with a Master and a Doctorate entry. *)
Definition two_degrees : resume :=
  mkResume ∅ ∅
    [ {[ "degree_type"%string := VStr MASTER;
         "university"%string := VStr (py "A");
         "enrollment_date"%string := VStr (py "2015-09") ]};
      {[ "degree_type"%string := VStr DOCTORATE;
         "university"%string := VStr (py "B") ]} ]
    [] [] ∅ None.

(** A cell of the sheet once [count] rows have been inserted below the
    two example rows that start at [first] and styled from row [first]. *)
Definition grown_cell (w : Worksheet) (first count r c : Z) : Cell :=
  if r <? first + 2 then cell w r c
  else if r <? first + 2 + count then inserted_cell (cell w first c) c
  else cell w (r - count) c.

(** The sheet after the rows of [l] have been written from row [first]
    on, over the cells [base]. *)
Definition written_cell (text : dict -> Z -> option pyval) (l : list dict)
    (first : Z) (base : Z -> Z -> Cell) (r c : Z) : Cell :=
  match row_entry l first r with
  | Some exp => row_cell (text exp c) (base r c)
  | None => base r c
  end.

(** A dated entry with the given start date and nothing else. *)
Definition entry_from (start : string) : dict :=
  {[ "start_date"%string := VStr (py start) ]}.

Definition with_work (l : list dict) : resume := mkResume ∅ ∅ [] l [] ∅ None.
Definition with_projects (l : list dict) : resume := mkResume ∅ ∅ [] [] l ∅ None.

Definition five_entries : list dict :=
  [entry_from "2011-01"; entry_from "2013-02"; entry_from "2015-03";
   entry_from "2017-04"; entry_from "2019-05"].

(** Every range whose top row is above row [pos] is still there. *)
Definition merges_kept_above (pos : Z) (before after : list CellRange) : Prop :=
  ∀ x, x ∈ before -> min_row x < pos -> x ∈ after.

(** The test of the header repair in the doctorate insertion. *)
Definition spans_header (header_row : Z) (mr : CellRange) : Prop :=
  min_row mr = header_row ∧ min_col mr = 1 ∧ 3 ≤ max_col mr.

(** The desktop application's [process_single_task].  The task record
    keeps its status, progress, message, parsed result and generated file;
    the completion message, which reports the elapsed time, is given.  The
    quota display and the upload of the result log are left out. *)
Inductive TaskStatus : Type := Pending | Processing | Completed | Failed.

Record Task : Type := mkTask {
  task_status : TaskStatus;
  task_progress : Z;
  task_message : pystr;
  task_result : option resume;
  task_excel : option Worksheet
}.

Definition process_single_task (env : Env) (done_message : pystr) (task : Task) : Task :=
  let failed (task : Task) (e : exn) :=
    mkTask Failed (task_progress task) (exn_str e) (task_result task) (task_excel task) in
  let task := mkTask (task_status task) 10 (py "正在提取文本...")
                     (task_result task) (task_excel task) in
  match extract_text_from_resume env with
  | Raise e => failed task e
  | Ok text =>
    let task := mkTask (task_status task) 30 (py "正在调用 AI 解析...")
                       (task_result task) (task_excel task) in
    let result := parse_resume_with_llm env text in
    let task := mkTask (task_status task) 70 (py "正在生成 Excel...")
                       (Some result) (task_excel task) in
    match template env with
    | None => failed task (OtherError (py "No such file or directory: " ++ template_path env))
    | Some template =>
      let generator := init template in
      match generate result generator with
      | Raise e => failed task e
      | Ok saved => mkTask Completed 100 done_message (task_result task) (Some saved)
      end
    end
  end.

(** What the parser returns when the remote call or the JSON decoding
    fails: a dictionary with the ["error"] key and no section. *)
Definition error_record (err : pystr) : resume := mkResume ∅ ∅ [] [] [] ∅ (Some err).

Definition failing_env (err : pystr) : Env :=
  mkEnv (py "resume.pdf") true (py ".pdf") (py "resume_parsed.json")
        (py "resume_filled.xlsx") (py "Templates/template.xlsx")
        (Some sample_template) (Ok (py "text of the resume"))
        (fun _ => error_record err).

Definition new_task : Task := mkTask Processing 0 [] None None.
Definition no_files : Files := mkFiles None None.

(* ===================================================================== *)
(** * Properties *)
(* ===================================================================== *)

(** ** Strings *)

Section Strip.

Lemma lstrip_blank s : blank s -> lstrip s = [].
Proof.
  induction 1 as [|c s Hc _ IH]; simpl; [done|]. by rewrite Hc.
Qed.

Lemma lstrip_head c t : py_isspace c = false -> lstrip (c :: t) = c :: t.
Proof. intros H. simpl. by rewrite H. Qed.

Lemma lstrip_cons_inv s c t : lstrip s = c :: t -> py_isspace c = false.
Proof.
  induction s as [|x s IH]; simpl; [done|].
  destruct (py_isspace x) eqn:Hx; [done|]. intros [= <- _]. done.
Qed.

Lemma lstrip_suffix s : ∃ pre, s = pre ++ lstrip s ∧ blank pre.
Proof.
  induction s as [|x s (pre & Hs & Hpre)]; simpl.
  - exists []. split; [done|constructor].
  - destruct (py_isspace x) eqn:Hx.
    + exists (x :: pre). split; [by rewrite Hs at 1|by constructor].
    + exists []. split; [done|constructor].
Qed.

Lemma rstrip_snoc t c : py_isspace c = false -> rstrip (t ++ [c]) = t ++ [c].
Proof.
  intros H. unfold rstrip. rewrite rev_app_distr. simpl. rewrite H.
  simpl. by rewrite rev_involutive.
Qed.

Lemma rstrip_prefix s : ∃ post, s = rstrip s ++ post ∧ blank post.
Proof.
  unfold rstrip. destruct (lstrip_suffix (rev s)) as (pre & Hs & Hpre).
  exists (rev pre). split.
  - rewrite <- rev_app_distr, <- Hs. by rewrite rev_involutive.
  - by apply List.Forall_rev.
Qed.

Lemma rstrip_last s t c : rstrip s = t ++ [c] -> py_isspace c = false.
Proof.
  unfold rstrip. intros H.
  assert (lstrip (rev s) = c :: rev t) as H'.
  { rewrite <- (rev_involutive (lstrip (rev s))), H, rev_app_distr. done. }
  by apply lstrip_cons_inv in H'.
Qed.

Lemma rstrip_head c t : py_isspace c = false -> ∃ t', rstrip (c :: t) = c :: t'.
Proof.
  intros Hc. destruct (rstrip_prefix (c :: t)) as (post & Hs & Hpost).
  destruct (rstrip (c :: t)) as [|x t'] eqn:E.
  - simpl in Hs. subst post. inversion Hpost; congruence.
  - injection Hs as -> _. by exists t'.
Qed.

(** The result of [strip] starts and ends with a character that is not
    white space. *)
Lemma strip_head s c t : strip s = c :: t -> py_isspace c = false.
Proof.
  unfold strip. intros H.
  destruct (lstrip s) as [|x l] eqn:E.
  - by vm_compute in H.
  - pose proof (lstrip_cons_inv _ _ _ E) as Hx.
    destruct (rstrip_head x l Hx) as [t' Ht']. rewrite Ht' in H.
    injection H as -> _. done.
Qed.

Lemma strip_last s t c : strip s = t ++ [c] -> py_isspace c = false.
Proof. unfold strip. apply rstrip_last. Qed.

Lemma strip_fixed c t c' :
  py_isspace c = false -> py_isspace c' = false ->
  strip (c :: t ++ [c']) = c :: t ++ [c'].
Proof.
  intros Hc Hc'. unfold strip. rewrite lstrip_head by done.
  by apply (rstrip_snoc (c :: t)).
Qed.

Lemma strip_single c : py_isspace c = false -> strip [c] = [c].
Proof. intros H. unfold strip. rewrite lstrip_head by done. by apply (rstrip_snoc []). Qed.

Lemma strip_blank s : blank s -> strip s = [].
Proof. intros H. unfold strip. by rewrite lstrip_blank. Qed.

Lemma strip_nil_inv s : strip s ≠ [] -> s ≠ [].
Proof. by intros H ->. Qed.

End Strip.

(** ** The date normaliser *)

Section Dates.
Import DatePatterns.

#[local] Arguments is_decimal : simpl never.

Lemma decimal_neq c k : is_decimal c = true -> is_decimal k = false -> (c =? k)%N = false.
Proof.
  intros Hc Hk. destruct (N.eqb_spec c k) as [->|]; [congruence|done].
Qed.

Lemma space_cases c :
  py_isspace c = true ->
  In c [9; 10; 11; 12; 13; 28; 29; 30; 31; 32; 133; 160; 5760; 8192; 8193; 8194;
        8195; 8196; 8197; 8198; 8199; 8200; 8201; 8202; 8232; 8233; 8239; 8287;
        12288]%N.
Proof.
  unfold py_isspace. rewrite !orb_true_iff, !andb_true_iff, !N.leb_le, !N.eqb_eq.
  simpl. lia.
Qed.

Lemma decimal_not_space c : is_decimal c = true -> py_isspace c = false.
Proof.
  intros Hc. destruct (py_isspace c) eqn:E; [|done].
  apply space_cases in E. simpl in E.
  repeat (destruct E as [<-|E]; [by vm_compute in Hc|]). done.
Qed.

Lemma format_date_blank d : strip d = [] -> _format_date (VStr d) = Ok VNone.
Proof.
  intros H. unfold _format_date. destruct (negb (truthy (VStr d))); [done|].
  by rewrite bool_decide_true.
Qed.

Lemma format_date_stripped d : strip d ≠ [] -> _format_date (VStr d) = match_date (strip d).
Proof.
  intros H. unfold _format_date. simpl.
  rewrite (bool_decide_false (d = [])) by by apply strip_nil_inv.
  simpl. by rewrite bool_decide_false.
Qed.

(** Facts about a digit that the matcher asks for. *)
Ltac digit_facts :=
  repeat match goal with
  | H : is_decimal ?c = true |- _ =>
    lazymatch goal with
    | _ : (c =? 45)%N = false |- _ => fail
    | _ =>
      pose proof (decimal_neq c 45 H eq_refl);
      pose proof (decimal_neq c 43 H eq_refl);
      pose proof (decimal_neq c 10 H eq_refl);
      pose proof (decimal_neq c 24180 H eq_refl);
      pose proof (decimal_neq c 26376 H eq_refl);
      pose proof (decimal_neq c 26085 H eq_refl)
    end
  end.

Lemma literal_not_decimal :
  Forall (fun c => is_decimal c = false) [45; 43; 10; 24180; 26376; 26085]%N.
Proof. repeat constructor. Qed.

Ltac literal_facts :=
  let H := fresh "Hlit" in
  pose proof literal_not_decimal as H;
  repeat (apply Forall_cons in H; destruct H as [? H]).

(** Runs a computation on a text whose characters are literals or known
    digits. *)
Ltac step_eval :=
  repeat (simpl;
          repeat match goal with
          | H : is_decimal _ = _ |- _ => rewrite H
          | H : (_ =? _)%N = _ |- _ => rewrite H
          end).

(** Replaces [re_match p s] in the goal by its value. *)
Ltac eval_re p :=
  match goal with
  | |- context [re_match p ?s] =>
    let E := fresh "E" in
    eassert (re_match p s = _) as E
      by (unfold p, hyphen, nian, yue, ri; step_eval; reflexivity);
    rewrite E; clear E
  end.

Ltac ground_py :=
  repeat match goal with
  | |- context [py ?x] =>
    let v := eval vm_compute in (py x) in change (py x) with v
  end.

Ltac re_eval :=
  literal_facts; ground_py; simpl app; unfold match_date;
  try eval_re ymd; try eval_re ym; try eval_re ym1; try eval_re y;
  try eval_re cn_ymd; try eval_re cn_ym;
  cbv beta iota; ground_py; unfold hyphen, zfill, index; step_eval.

Ltac explode_digits :=
  repeat match goal with
  | H : _ ∨ _ |- _ => destruct H as [H|H]
  | H : digits _ ?y |- _ =>
    let Hlen := fresh "Hlen" in
    let Hall := fresh "Hall" in
    destruct H as [Hlen Hall];
    repeat (destruct y as [|? y]; simpl in Hlen; try discriminate Hlen);
    clear Hlen
  | H : Forall _ (_ :: _) |- _ => apply Forall_cons in H; destruct H as [? H]
  | H : Forall _ [] |- _ => clear H
  end.

Lemma digits_intro (l : pystr) n :
  length l = n -> Forall (fun c => is_decimal c = true) l -> digits n l.
Proof. by split. Qed.

Lemma canonical_intro y1 y2 y3 y4 m1 m2 d1 d2 :
  Forall (fun c => is_decimal c = true) [y1; y2; y3; y4; m1; m2; d1; d2] ->
  canonical [y1; y2; y3; y4; 45; m1; m2; 45; d1; d2]%N.
Proof.
  intros H. exists [y1; y2; y3; y4], [m1; m2], [d1; d2].
  repeat (apply Forall_cons in H; destruct H as [? H]).
  repeat split; repeat constructor; done.
Qed.

Lemma canonical_strip r : canonical r -> strip r = r ∧ r ≠ [].
Proof.
  intros (y & m & d & Hy & Hm & Hd & ->). explode_digits. split; [|done].
  apply (strip_fixed _ [_; _; _; _; _; _; _; _]); by apply decimal_not_space.
Qed.

Lemma match_date_canonical r : canonical r -> match_date r = Ok (VStr r).
Proof.
  intros (y & m & d & Hy & Hm & Hd & ->). explode_digits. digit_facts.
  by re_eval.
Qed.

(** A canonical date is returned as it is. *)
Lemma format_date_canonical r : canonical r -> _format_date (VStr r) = Ok (VStr r).
Proof.
  intros H. destruct (canonical_strip r H) as [Hs Hne].
  rewrite format_date_stripped; rewrite Hs; [|done]. by apply match_date_canonical.
Qed.

Lemma match_date_recognized s :
  recognized s -> ∃ r, match_date s = Ok (VStr r) ∧ canonical r.
Proof.
  destruct 1; explode_digits; subst; digit_facts; re_eval;
    (eexists; split; [reflexivity|]); apply canonical_intro;
    repeat constructor; done.
Qed.

Lemma recognized_strip s : recognized s -> strip s = s ∧ s ≠ [].
Proof.
  destruct 1; explode_digits; subst; (split; [|done]); simpl;
    repeat match goal with
    | H : is_decimal _ = true |- _ => apply decimal_not_space in H
    end;
    first
      [ apply (strip_fixed _ [_; _; _; _; _; _; _; _; _; _])
      | apply (strip_fixed _ [_; _; _; _; _; _; _; _; _])
      | apply (strip_fixed _ [_; _; _; _; _; _; _; _])
      | apply (strip_fixed _ [_; _; _; _; _; _; _])
      | apply (strip_fixed _ [_; _; _; _; _; _])
      | apply (strip_fixed _ [_; _; _; _; _])
      | apply (strip_fixed _ [_; _; _; _])
      | apply (strip_fixed _ [_; _]) ];
    done.
Qed.

(** The same for a date padded with white space. *)
Lemma format_date_recognized_padded d :
  recognized (strip d) ->
  ∃ r, _format_date (VStr d) = Ok (VStr r) ∧ canonical r
       ∧ _format_date (VStr r) = Ok (VStr r).
Proof.
  intros H. destruct (recognized_strip _ H) as [_ Hne].
  destruct (match_date_recognized _ H) as (r & Hr & Hc).
  exists r. rewrite format_date_stripped by done.
  by split_and!; [|  |apply format_date_canonical].
Qed.

(** *** Totality on optional strings *)

Lemma strip_nil_blank s : strip s = [] -> blank s.
Proof.
  unfold strip. intros H.
  destruct (lstrip_suffix s) as (pre & Hs & Hpre).
  destruct (rstrip_prefix (lstrip s)) as (post & Hl & Hpost).
  rewrite H in Hl. simpl in Hl. rewrite Hs, Hl. by apply Forall_app.
Qed.

Lemma count_groups (p : regex) s gs :
  re_match p s = Some gs -> length gs = ngroups p.
Proof.
  revert s gs. induction p as [|it p IH]; intros s gs; simpl.
  - by intros [= <-].
  - generalize (atom_alts (atom_of it) s). intros alts.
    induction alts as [|t alts IHa]; simpl; [done|].
    destruct (re_match p t) as [gs'|] eqn:E; [|done].
    intros [= <-]. apply IH in E. destruct it; simpl; by rewrite ?E.
Qed.

Lemma split_on_In sep s : In sep s -> (2 <= length (split_on sep s))%nat.
Proof.
  induction s as [|c s IH]; simpl; [done|].
  destruct (N.eqb_spec c sep) as [->|Hne].
  - intros _. simpl. destruct s; simpl; [lia|].
    destruct (_ =? _)%N; simpl; [lia|]. destruct (split_on sep s); simpl; lia.
  - intros [?|H]; [done|]. specialize (IH H).
    destruct (split_on sep s); simpl in *; lia.
Qed.

Lemma ym1_has_hyphen s gs : re_match ym1 s = Some gs -> In hyphen s.
Proof.
  unfold ym1, hyphen.
  destruct s as [|a [|b [|c [|d [|e t]]]]]; simpl;
    repeat (destruct (is_decimal _); simpl); try (intros; discriminate).
  destruct (N.eqb_spec e 45) as [->|]; [|done]. intros _. tauto.
Qed.

Lemma match_date_total s : ∃ r, match_date s = Ok (VStr r).
Proof.
  unfold match_date.
  destruct (re_match ymd s); [by eexists|].
  destruct (re_match ym s); [by eexists|].
  destruct (re_match ym1 s) as [gs|] eqn:E1.
  { apply ym1_has_hyphen, (split_on_In hyphen) in E1. unfold index.
    destruct (split_on hyphen s) as [|p0 [|p1 ps]]; simpl in *; [lia|lia|].
    by eexists. }
  destruct (re_match y s); [by eexists|].
  destruct (re_match cn_ymd s) as [gs|] eqn:E5.
  { apply count_groups in E5. destruct gs as [|? [|? [|? [|]]]]; try done. by eexists. }
  destruct (re_match cn_ym s) as [gs|] eqn:E6.
  { apply count_groups in E6. destruct gs as [|? [|? [|]]]; try done. by eexists. }
  by eexists.
Qed.

Lemma format_date_total (o : option pystr) :
  ∃ r, _format_date (of_optstr o) = Ok (of_optstr r).
Proof.
  destruct o as [s|]; [|by exists None]. unfold of_optstr at 1.
  destruct (decide (strip s = [])) as [H|H].
  - exists None. by apply format_date_blank.
  - rewrite format_date_stripped by done.
    destruct (match_date_total (strip s)) as [r ->]. by exists (Some r).
Qed.

Lemma format_date_unrecognized s :
  ¬ blank s -> unrecognized (strip s) -> _format_date (VStr s) = Ok (VStr (strip s)).
Proof.
  intros Hb Hu. rewrite format_date_stripped.
  - unfold unrecognized in Hu.
    repeat (apply Forall_cons in Hu; destruct Hu as [? Hu]).
    unfold match_date. by repeat match goal with H : re_match _ _ = None |- _ => rewrite H; clear H end.
  - intros H. by apply Hb, strip_nil_blank.
Qed.

(** C6. A date in one of the recognised forms normalises to a text of
    the canonical shape YYYY-MM-DD, and normalising that text again
    returns it unchanged. *)
Theorem format_date_canonical_idempotent d :
  recognized d ->
  ∃ r, _format_date (VStr d) = Ok (VStr r) ∧ canonical r
       ∧ _format_date (VStr r) = Ok (VStr r).
Proof.
  intros H. apply format_date_recognized_padded.
  destruct (recognized_strip d H) as [-> _]. done.
Qed.

Lemma format_date_canonical_idempotent_witness :
  recognized (py "2024年3月") ∧
  ∃ r, _format_date (VStr (py "2024年3月")) = Ok (VStr r) ∧ canonical r
       ∧ _format_date (VStr r) = Ok (VStr r).
Proof.
  assert (recognized (py "2024年3月")) as H.
  { apply (rec_cn_ym (py "2024") (py "3")).
    - split; [reflexivity|repeat constructor].
    - left. split; [reflexivity|repeat constructor]. }
  split; [exact H|]. exact (format_date_canonical_idempotent _ H).
Defined.

(** C7 (amended). An absent or blank input yields [None]; a text that
    is not blank and matches no pattern is returned with its surrounding
    white space stripped; on an optional string the normaliser never
    raises. *)
Theorem format_date_absent_stripped_total :
  _format_date VNone = Ok VNone
  ∧ (∀ s, blank s -> _format_date (VStr s) = Ok VNone)
  ∧ (∀ s, ¬ blank s -> unrecognized (strip s) ->
          _format_date (VStr s) = Ok (VStr (strip s)))
  ∧ (∀ o : option pystr, ∃ r : option pystr,
        _format_date (of_optstr o) = Ok (of_optstr r)).
Proof.
  split_and!.
  - done.
  - intros s H. by apply format_date_blank, strip_blank.
  - apply format_date_unrecognized.
  - apply format_date_total.
Qed.

Lemma not_blank_cons c s : py_isspace c = false -> ¬ blank (s ++ [c]).
Proof.
  intros Hc H. apply Forall_app in H as [_ H].
  apply Forall_cons in H as [H _]. congruence.
Qed.

Lemma unrecognized_eval s :
  (re_match ymd s = None) -> (re_match ym s = None) -> (re_match ym1 s = None) ->
  (re_match y s = None) -> (re_match cn_ymd s = None) -> (re_match cn_ym s = None) ->
  unrecognized s.
Proof. intros. by repeat constructor. Qed.

Lemma format_date_absent_stripped_total_witness :
  let s := py " n/a" in
  ¬ blank s ∧ unrecognized (strip s) ∧ _format_date (VStr s) = Ok (VStr (py "n/a")).
Proof.
  assert (¬ blank (py " n/a")) as Hb by (by apply (not_blank_cons _ (py " n/"))).
  assert (unrecognized (strip (py " n/a"))) as Hu by (by apply unrecognized_eval).
  split_and!; [exact Hb|exact Hu|].
  exact (proj1 (proj2 (proj2 format_date_absent_stripped_total)) _ Hb Hu).
Defined.

(** C7 as stated fails: the text returned for an unrecognised input is
    the stripped text, not the original. *)
Lemma format_date_original_text_counterexample :
  let s := py " n/a" in
  ¬ blank s ∧ unrecognized s ∧ unrecognized (strip s)
  ∧ _format_date (VStr s) = Ok (VStr (py "n/a"))
  ∧ _format_date (VStr s) ≠ Ok (VStr s).
Proof.
  split_and!.
  - by apply (not_blank_cons _ (py " n/")).
  - by apply unrecognized_eval.
  - by apply unrecognized_eval.
  - reflexivity.
  - by vm_compute.
Qed.

(** Some dates through the normaliser. *)
Example format_date_examples :
  _format_date (VStr (py "2021-07-15")) = Ok (VStr (py "2021-07-15"))
  ∧ _format_date (VStr (py "2021-07")) = Ok (VStr (py "2021-07-01"))
  ∧ _format_date (VStr (py "2021-7")) = Ok (VStr (py "2021-07-01"))
  ∧ _format_date (VStr (py "2021")) = Ok (VStr (py "2021-01-01"))
  ∧ _format_date (VStr (py "2021年7月5日")) = Ok (VStr (py "2021-07-05"))
  ∧ _format_date (VStr (py "2021年07月")) = Ok (VStr (py "2021-07-01"))
  ∧ _format_date (VStr (py "  ")) = Ok VNone
  ∧ _format_date (VStr (py "至今")) = Ok (VStr (py "至今"))
  ∧ ∃ m, _format_date (VInt 2021) = Raise (AttributeError m).
Proof. split_and!; try reflexivity. by eexists. Qed.

End Dates.

(** ** The worksheet *)

Section Grid.
Implicit Types (w : Worksheet) (r c : Z) (f : Cell -> Cell).

Lemma cell_upd_cell r0 c0 f w r c :
  cell (upd_cell r0 c0 f w) r c =
  if (r =? r0) && (c =? c0) then f (cell w r c) else cell w r c.
Proof. reflexivity. Qed.

Lemma cell_upd_cell_eq r0 c0 f w : cell (upd_cell r0 c0 f w) r0 c0 = f (cell w r0 c0).
Proof. by rewrite cell_upd_cell, !Z.eqb_refl. Qed.

Lemma cell_upd_cell_ne r0 c0 f w r c :
  r ≠ r0 ∨ c ≠ c0 -> cell (upd_cell r0 c0 f w) r c = cell w r c.
Proof.
  intros H. rewrite cell_upd_cell.
  destruct (Z.eqb_spec r r0), (Z.eqb_spec c c0); simpl; try done. tauto.
Qed.

Lemma merged_upd_cell r0 c0 f w : merged_cells (upd_cell r0 c0 f w) = merged_cells w.
Proof. reflexivity. Qed.

Lemma cell_insert_rows idx n w r c :
  cell (insert_rows idx n w) r c =
  if r <? idx then cell w r c
  else if r <? idx + n then blank_cell
  else cell w (r - n) c.
Proof. reflexivity. Qed.

Lemma merged_insert_rows idx n w : merged_cells (insert_rows idx n w) = merged_cells w.
Proof. reflexivity. Qed.

Lemma cell_merge_cells mr w r c : cell (merge_cells mr w) r c = cell w r c.
Proof. reflexivity. Qed.

Lemma merged_merge_cells_new mr w : mr ∈ merged_cells (merge_cells mr w).
Proof.
  unfold merge_cells. simpl. case_bool_decide; [done|]. set_solver.
Qed.

Lemma merged_merge_cells_old mr x w :
  x ∈ merged_cells w -> x ∈ merged_cells (merge_cells mr w).
Proof.
  unfold merge_cells. simpl. case_bool_decide; [done|]. set_solver.
Qed.

Lemma merged_merge_cells_inv mr x w :
  x ∈ merged_cells (merge_cells mr w) -> x = mr ∨ x ∈ merged_cells w.
Proof.
  unfold merge_cells. simpl. case_bool_decide; [tauto|]. set_solver.
Qed.

Lemma NoDup_merge_cells mr w : NoDup (merged_cells w) -> NoDup (merged_cells (merge_cells mr w)).
Proof.
  unfold merge_cells. simpl. case_bool_decide as H; [done|].
  intros Hn. apply NoDup_app. split_and!; [done|set_solver|apply NoDup_singleton].
Qed.

Lemma copy_style_idemp src x : copy_style src (copy_style src x) = copy_style src x.
Proof. reflexivity. Qed.

Lemma cell_copy_cell_style s t col w r c :
  cell (copy_cell_style s t col w) r c =
  if (r =? t) && (c =? col) && has_style (cell w s col)
  then copy_style (cell w s col) (cell w r c)
  else cell w r c.
Proof.
  unfold copy_cell_style. destruct (has_style _) eqn:E; rewrite ?cell_upd_cell;
    by rewrite ?andb_true_r, ?andb_false_r.
Qed.

Lemma merged_copy_cell_style s t col w :
  merged_cells (copy_cell_style s t col w) = merged_cells w.
Proof. unfold copy_cell_style. by destruct (has_style _). Qed.

Lemma cell_copy_cols s t (cols : list Z) w r c :
  s ≠ t ->
  cell (foldl (fun w col => copy_cell_style s t col w) w cols) r c =
  if (r =? t) && bool_decide (c ∈ cols) && has_style (cell w s c)
  then copy_style (cell w s c) (cell w r c)
  else cell w r c.
Proof.
  intros Hst. revert w. induction cols as [|x cols IH]; intros w; cbn [foldl].
  - rewrite bool_decide_false by set_solver. by rewrite andb_false_r.
  - rewrite IH, !cell_copy_cell_style.
    assert ((s =? t) = false) as -> by lia. simpl.
    destruct (Z.eqb_spec r t) as [->|]; simpl; [|done].
    destruct (Z.eqb_spec c x) as [->|Hne]; simpl.
    + rewrite (bool_decide_true (x ∈ x :: cols)) by set_solver.
      destruct (has_style (cell w s x)); simpl; [|by rewrite andb_false_r].
      by destruct (bool_decide _).
    + destruct (decide (c ∈ cols)) as [Hin|Hin].
      * rewrite !bool_decide_true by set_solver. done.
      * rewrite !bool_decide_false by set_solver. done.
Qed.

Lemma merged_copy_row_style s t n w :
  merged_cells (_copy_row_style s t n w) = merged_cells w.
Proof.
  unfold _copy_row_style. generalize (py_range 1 (n + 1)). intros cols. revert w.
  induction cols as [|x cols IH]; intros w; simpl; [done|].
  by rewrite IH, merged_copy_cell_style.
Qed.

Lemma elem_of_py_range a b x : x ∈ py_range a b ↔ a ≤ x < b.
Proof. unfold py_range. rewrite elem_of_seqZ. lia. Qed.

Lemma cell_copy_row_style s t n w r c :
  s ≠ t ->
  cell (_copy_row_style s t n w) r c =
  if (r =? t) && ((1 <=? c) && (c <=? n)) && has_style (cell w s c)
  then copy_style (cell w s c) (cell w r c)
  else cell w r c.
Proof.
  intros Hst. unfold _copy_row_style. rewrite cell_copy_cols by done.
  destruct (decide (1 ≤ c ≤ n)) as [H|H].
  - rewrite bool_decide_true by (apply elem_of_py_range; lia).
    by replace ((1 <=? c) && (c <=? n)) with true by lia.
  - rewrite bool_decide_false by (rewrite elem_of_py_range; lia).
    by replace ((1 <=? c) && (c <=? n)) with false by lia.
Qed.

(** The row loop that styles inserted rows: the targets are
    [first + i], the source of target [first + i] is [src i], and no source
    row is a target. *)
Lemma cell_copy_rows (src : Z -> Z) first (offsets : list Z) w r c :
  (∀ i j, i ∈ offsets -> j ∈ offsets -> src i ≠ first + j) ->
  cell (foldl (fun w i => _copy_row_style (src i) (first + i) 15 w) w offsets) r c =
  if bool_decide (r - first ∈ offsets) && ((1 <=? c) && (c <=? 15))
     && has_style (cell w (src (r - first)) c)
  then copy_style (cell w (src (r - first)) c) (cell w r c)
  else cell w r c.
Proof.
  revert w. induction offsets as [|x offsets IH]; intros w Hd; cbn [foldl].
  { by rewrite bool_decide_false by set_solver. }
  rewrite IH by (intros; apply Hd; set_solver).
  assert (∀ j, j ∈ x :: offsets -> src j ≠ first + x) as Hx
    by (intros; apply Hd; set_solver).
  rewrite !cell_copy_row_style by (apply Hd; set_solver).
  destruct ((1 <=? c) && (c <=? 15)) eqn:Ec; rewrite ?andb_false_r, ?andb_true_r;
    simpl; [|done].
  destruct (decide (r - first ∈ offsets)) as [Hin|Hin].
  - rewrite (bool_decide_true (r - first ∈ offsets)) by done.
    rewrite (bool_decide_true (r - first ∈ x :: offsets)) by set_solver.
    assert ((src (r - first) =? first + x) = false) as ->
      by (apply Z.eqb_neq, Hx; set_solver).
    simpl.
    destruct (has_style (cell w (src (r - first)) c)) eqn:Es; simpl.
    + by destruct ((r =? first + x) && _).
    + destruct (Z.eqb_spec r (first + x)) as [->|]; simpl; [|done].
      replace (first + x - first) with x in Es by lia. by rewrite Es.
  - rewrite (bool_decide_false (r - first ∈ offsets)) by done. simpl.
    destruct (Z.eqb_spec r (first + x)) as [->|Hne]; simpl.
    + replace (first + x - first) with x in * by lia.
      by rewrite (bool_decide_true (x ∈ x :: offsets)) by set_solver.
    + rewrite (bool_decide_false (r - first ∈ x :: offsets)); [done|].
      rewrite elem_of_cons. intros [?|?]; [lia|done].
Qed.

Lemma merged_copy_rows (src : Z -> Z) first (offsets : list Z) w :
  merged_cells (foldl (fun w i => _copy_row_style (src i) (first + i) 15 w) w offsets)
  = merged_cells w.
Proof.
  revert w. induction offsets as [|x offsets IH]; intros w; simpl; [done|].
  by rewrite IH, merged_copy_row_style.
Qed.

(** Removing merged ranges: the cells stay, and exactly the ranges that
    satisfy the condition go. *)
Lemma try_unmerge mr w :
  try_pass (unmerge_cells mr) w = mkSheet (cells w) (filter (fun x => x ≠ mr) (merged_cells w)).
Proof.
  unfold try_pass, unmerge_cells. case_bool_decide as H; [done|].
  destruct w as [cs ms]; simpl in *. f_equal.
  induction ms as [|m ms IH]; [done|].
  rewrite filter_cons_True by (intros ->; apply H; set_solver).
  f_equal. apply IH. intros ?. apply H. set_solver.
Qed.

Lemma unmerge_each (l : list CellRange) w :
  foldl (fun w mr => try_pass (unmerge_cells mr) w) w l
  = mkSheet (cells w) (filter (fun x => x ∉ l) (merged_cells w)).
Proof.
  revert w. induction l as [|mr l IH]; intros w; simpl.
  - destruct w as [cs ms]; simpl. f_equal.
    induction ms as [|m ms IHm]; [done|].
    rewrite filter_cons_True by set_solver. by f_equal.
  - rewrite IH, try_unmerge. simpl. f_equal.
    induction (merged_cells w) as [|m ms IHm]; [done|].
    destruct (decide (m = mr)) as [->|Hne].
    + rewrite (filter_cons_False (fun x => x ≠ mr)) by tauto.
      rewrite (filter_cons_False (fun x => x ∉ mr :: l)) by set_solver. done.
    + rewrite (filter_cons_True (fun x => x ≠ mr)) by done.
      destruct (decide (m ∈ l)).
      * rewrite !filter_cons_False by set_solver. done.
      * rewrite !filter_cons_True by set_solver. by f_equal.
Qed.

Lemma filter_ext_in {A} (P Q : A -> Prop) `{!∀ x, Decision (P x), !∀ x, Decision (Q x)}
    (l : list A) :
  (∀ x, x ∈ l -> (P x ↔ Q x)) -> filter P l = filter Q l.
Proof.
  induction l as [|a l IH]; intros Hpq; [done|].
  rewrite !filter_cons. rewrite IH by (intros; apply Hpq; set_solver).
  assert (P a ↔ Q a) as Ha by (apply Hpq; set_solver).
  destruct (decide (P a)), (decide (Q a)); tauto.
Qed.

Lemma unmerge_where_eq (cond : CellRange -> bool) w :
  unmerge_where cond w
  = mkSheet (cells w) (filter (fun mr => cond mr = false) (merged_cells w)).
Proof.
  unfold unmerge_where. rewrite unmerge_each. f_equal.
  apply filter_ext_in. intros x Hx. rewrite list_elem_of_filter.
  destruct (cond x); naive_solver.
Qed.

Lemma cell_unmerge_where cond w r c : cell (unmerge_where cond w) r c = cell w r c.
Proof. by rewrite unmerge_where_eq. Qed.

End Grid.

(** ** The field writers *)

Section Writers.

Lemma optstr_format_date v : optstr v -> _format_date v = Ok (date_text v) ∧ optstr (date_text v).
Proof.
  intros [o ->]. unfold date_text.
  destruct (format_date_total o) as [r ->]. split; [done|by exists r].
Qed.

Lemma date_text_None : date_text VNone = VNone.
Proof. reflexivity. Qed.

Lemma match_date_nonempty s : s ≠ [] -> ∃ r, match_date s = Ok (VStr r) ∧ r ≠ [].
Proof.
  intros Hs. unfold match_date.
  assert (∀ (a b : pystr) x, a ++ x :: b ≠ []) as Happ by (by intros [|]).
  destruct (re_match DatePatterns.ymd s); [by eexists|].
  destruct (re_match DatePatterns.ym s); [eexists; split; [done|apply (Happ _ _ 45%N)]|].
  destruct (re_match DatePatterns.ym1 s) as [gs|] eqn:E1.
  { apply ym1_has_hyphen, (split_on_In DatePatterns.hyphen) in E1. unfold index.
    destruct (split_on DatePatterns.hyphen s) as [|p0 [|p1 ps]]; simpl in *; [lia|lia|].
    eexists; split; [done|apply (Happ _ _ 45%N)]. }
  destruct (re_match DatePatterns.y s); [eexists; split; [done|apply (Happ _ _ 45%N)]|].
  destruct (re_match DatePatterns.cn_ymd s) as [gs|] eqn:E5.
  { apply count_groups in E5. destruct gs as [|? [|? [|? [|]]]]; try done.
    eexists; split; [done|apply (Happ _ _ 45%N)]. }
  destruct (re_match DatePatterns.cn_ym s) as [gs|] eqn:E6.
  { apply count_groups in E6. destruct gs as [|? [|? [|]]]; try done.
    eexists; split; [done|apply (Happ _ _ 45%N)]. }
  by eexists.
Qed.

(** What [_fill_cell] does once the date step has returned. *)
Lemma fill_cell_ok row col v ao isd g v' :
  (if isd && truthy v then _format_date v else Ok v) = Ok v' ->
  _fill_cell row col v ao isd g
  = Ok (mkGen (upd_cell (target_row g row ao) col (write_field v') (ws g)) (row_offset g)).
Proof. intros H. unfold _fill_cell. by rewrite H. Qed.

Lemma write_field_missing v x : missing v -> write_field v x = mark_missing x.
Proof. by intros [->|[->| ->]]. Qed.

Lemma write_field_present v x :
  ¬ missing v -> fill (write_field v x) = fill x ∧ font (write_field v x) = font x.
Proof.
  unfold missing. intros H. unfold write_field.
  destruct v as [|b|z|s|l]; simpl; try done.
  - tauto.
  - destruct s; [tauto|done].
  - destruct l; [tauto|done].
Qed.

Lemma cell_highlight_if_placeholder row col w r c :
  cell (highlight_if_placeholder row col w) r c =
  if (r =? row) && (c =? col) then hl_if_placeholder (cell w r c) else cell w r c.
Proof.
  unfold highlight_if_placeholder, hl_if_placeholder.
  destruct (py_eqb (value (cell w row col)) _) eqn:E.
  - rewrite cell_upd_cell.
    destruct (Z.eqb_spec r row) as [->|], (Z.eqb_spec c col) as [->|]; simpl; try done.
    by rewrite E.
  - destruct (Z.eqb_spec r row) as [->|], (Z.eqb_spec c col) as [->|]; simpl; try done.
    by rewrite E.
Qed.

Lemma merged_highlight_if_placeholder row col w :
  merged_cells (highlight_if_placeholder row col w) = merged_cells w.
Proof. unfold highlight_if_placeholder. by destruct (py_eqb _ _). Qed.

Ltac split_cols c :=
  repeat match goal with
  | |- context [c =? ?k] => destruct (Z.eqb_spec c k); [subst c|]
  end.

(** A row of work history: the five columns receive their texts, a cell
    that shows the placeholder is highlighted, nothing else changes. *)
Lemma write_work_row_ok row exp g :
  dates_ok exp ->
  ∃ w', write_work_row row exp g = Ok (mkGen w' (row_offset g))
        ∧ merged_cells w' = merged_cells (ws g)
        ∧ ∀ r c, cell w' r c =
                 if r =? row then row_cell (work_text exp c) (cell (ws g) r c)
                 else cell (ws g) r c.
Proof.
  intros [[Hs _]%optstr_format_date [He _]%optstr_format_date].
  unfold write_work_row. rewrite Hs, He. eexists. split; [reflexivity|].
  change (py_range 1 6) with [1; 2; 3; 4; 5]. cbn [foldl]. split.
  - by rewrite !merged_highlight_if_placeholder.
  - intros r c. rewrite !cell_highlight_if_placeholder, !cell_upd_cell.
    unfold work_text, row_cell.
    destruct (Z.eqb_spec r row) as [->|]; simpl; [|done].
    split_cols c; simpl; done.
Qed.

Lemma write_project_row_ok row exp g :
  dates_ok exp ->
  ∃ w', write_project_row row exp g = Ok (mkGen w' (row_offset g))
        ∧ merged_cells w' = merged_cells (ws g)
        ∧ ∀ r c, cell w' r c =
                 if r =? row then row_cell (project_text exp c) (cell (ws g) r c)
                 else cell (ws g) r c.
Proof.
  intros [[Hs _]%optstr_format_date [He _]%optstr_format_date].
  unfold write_project_row. rewrite Hs, He. eexists. split; [reflexivity|].
  cbn [foldl]. split.
  - by rewrite !merged_highlight_if_placeholder.
  - intros r c. rewrite !cell_highlight_if_placeholder, !cell_upd_cell.
    unfold project_text, row_cell.
    destruct (Z.eqb_spec r row) as [->|]; simpl; [|done].
    split_cols c; simpl; done.
Qed.

Lemma placeholder_tokens : YES ≠ PLACEHOLDER ∧ NO ≠ PLACEHOLDER.
Proof. done. Qed.




(** The row writers highlight by the text shown: a company whose name is
    the placeholder token itself is highlighted too. *)
Example placeholder_text_highlighted :
  let exp : dict := {[ "company"%string := VStr PLACEHOLDER ]} in
  ∃ g', write_work_row 33 exp (init blank_sheet) = Ok g'
        ∧ fill (cell (ws g') 33 3) = HIGHLIGHT_FILL.
Proof. eexists. split; reflexivity. Qed.



(** An absent flag is the only one shown as missing. *)
Example psbc_text_cases :
  psbc_text VNone = VStr PLACEHOLDER
  ∧ psbc_text (VBool false) = VStr NO
  ∧ psbc_text (VBool true) = VStr YES.
Proof. done. Qed.

End Writers.

(** ** The education stage *)

Section Education.

Lemma classify_step_tier acc edu :
  classify_step acc edu = t ← tier_of edu; Ok (put t edu acc).
Proof.
  unfold classify_step, tier_of. destruct acc as [[u m] d].
  destruct (py_in BACHELOR _) as [[]|]; simpl; [done| |done].
  destruct (py_in MASTER _) as [[]|]; simpl; [done| |done].
  by destruct (py_in DOCTORATE _) as [[]|].
Qed.

Lemma classify_from_app acc l1 l2 :
  classify_from acc (l1 ++ l2) = acc' ← classify_from acc l1; classify_from acc' l2.
Proof.
  revert acc. induction l1 as [|e l1 IH]; intros acc; simpl; [done|].
  destruct (classify_step acc e); simpl; [apply IH|done].
Qed.

(** An entry that has a tier is not the empty dictionary. *)
Lemma tier_truthy edu t : tier_of edu = Ok (Some t) -> dict_truthy edu = true.
Proof.
  intros H. unfold dict_truthy. case_bool_decide as E; [|done].
  subst edu. by vm_compute in H.
Qed.

Lemma slot_put_same t e acc : slot t (put (Some t) e acc) = Some e.
Proof. destruct acc as [[u m] d]. by destruct t. Qed.

Lemma slot_put_other t t' e acc : t' ≠ Some t -> slot t (put t' e acc) = slot t acc.
Proof. destruct acc as [[u m] d]. by destruct t, t' as [[]|]. Qed.

Lemma slots_eq (a b : Slots) : (∀ t, slot t a = slot t b) -> a = b.
Proof.
  destruct a as [[u m] d], b as [[u' m'] d']. intros H.
  pose proof (H Bachelor). pose proof (H Master). pose proof (H Doctorate).
  simpl in *. congruence.
Qed.

(** Later entries of other tiers leave a slot alone. *)
Lemma classify_from_keeps t acc l :
  Forall (fun x => ∃ tx, tier_of x = Ok tx ∧ tx ≠ Some t) l ->
  ∃ slots, classify_from acc l = Ok slots ∧ slot t slots = slot t acc.
Proof.
  intros H. revert acc. induction H as [|x l (tx & Hx & Hne) _ IH]; intros acc; simpl.
  - by exists acc.
  - rewrite classify_step_tier, Hx. simpl.
    destruct (IH (put tx x acc)) as (slots & -> & Hs).
    exists slots. split; [done|]. by rewrite Hs, slot_put_other.
Qed.

Lemma classify_from_ok acc l :
  Forall classifiable l -> ∃ slots, classify_from acc l = Ok slots.
Proof.
  intros H. revert acc. induction H as [|x l [tx Hx] _ IH]; intros acc; simpl.
  - by exists acc.
  - rewrite classify_step_tier, Hx. simpl. apply IH.
Qed.

(** Two accumulators that differ at most in slot [t] give the same
    result once a later entry of tier [t] has been filed. *)
Lemma classify_from_overwritten t acc acc' l e rest :
  (∀ t', t' ≠ t -> slot t' acc = slot t' acc') ->
  tier_of e = Ok (Some t) ->
  classify_from acc (l ++ e :: rest) = classify_from acc' (l ++ e :: rest).
Proof.
  intros Hagree He. revert acc acc' Hagree.
  induction l as [|x l IH]; intros acc acc' Hagree; simpl.
  - rewrite !classify_step_tier, He. simpl. f_equal. apply slots_eq. intros t'.
    destruct (decide (t' = t)) as [->|Hne].
    + by rewrite !slot_put_same.
    + rewrite !slot_put_other by congruence. by apply Hagree.
  - rewrite !classify_step_tier. destruct (tier_of x) as [tx|]; simpl; [|done].
    apply IH. intros t' Hne.
    destruct (decide (tx = Some t')) as [->|Hne'].
    + by rewrite !slot_put_same.
    + rewrite !slot_put_other by done. by apply Hagree.
Qed.



(** *** The blocks of the education stage *)

Lemma fill_cell_typed row col v ao isd g :
  (isd = true -> optstr v) ->
  _fill_cell row col v ao isd g
  = Ok (mkGen (upd_cell (target_row g row ao) col (write_field (field_step v isd)) (ws g))
              (row_offset g)).
Proof.
  intros H. apply fill_cell_ok. unfold field_step.
  destruct isd; simpl; [|done]. destruct (truthy v); [|done].
  by apply optstr_format_date, H.
Qed.

Lemma fill_cell_at row col v isd W off :
  (isd = true -> optstr v) ->
  _fill_cell row col v true isd (mkGen W off)
  = Ok (mkGen (upd_cell (row + off) col (write_field (field_step v isd)) W) off).
Proof. intros H. by rewrite fill_cell_typed. Qed.

Lemma and_then_ok (f h : step) g g1 : f g = Ok g1 -> (f >> h) g = h g1.
Proof. intros H. unfold and_then. by rewrite H. Qed.

Lemma empty_dates_ok : edu_dates_ok ∅.
Proof. split; by exists None. Qed.

(** Decides the position tests of a looked-up cell by arithmetic. *)
Ltac cell_at :=
  repeat (rewrite cell_upd_cell;
          match goal with
          | |- context [(?a =? ?b) && (?c =? ?d)] =>
            first [ replace (a =? b) with false by lia
                  | replace (c =? d) with false by lia; rewrite andb_false_r
                  | replace (a =? b) with true by lia; replace (c =? d) with true by lia ]
          end; cbn [andb]).

Ltac run_fills H1 H2 :=
  repeat (erewrite and_then_ok;
          [|apply fill_cell_at; first [by intros [=] | by intros _; apply H1
                                      | by intros _; apply H2]]);
  try (rewrite fill_cell_at
         by first [by intros [=] | by intros _; apply H1 | by intros _; apply H2]).

Lemma fill_undergraduate_ok edu g :
  edu_dates_ok edu ->
  ∃ W, _fill_undergraduate edu g = Ok (mkGen W (row_offset g))
       ∧ merged_cells W = merged_cells (ws g)
       ∧ ∀ r c, ¬ (14 + row_offset g ≤ r ≤ 20 + row_offset g) ->
                cell W r c = cell (ws g) r c.
Proof.
  intros [H1 H2]. destruct g as [W0 off]. unfold _fill_undergraduate. run_fills H1 H2.
  eexists. split; [reflexivity|]. split; [reflexivity|].
  intros r c Hr. cbn [ws row_offset] in *.
  by cell_at.
Qed.

Lemma fill_graduate_master_ok edu g :
  edu_dates_ok edu ->
  ∃ W, _fill_graduate edu MASTER g = Ok (mkGen W (row_offset g))
       ∧ merged_cells W = merged_cells (ws g)
       ∧ (∀ r c, ¬ (23 + row_offset g ≤ r ≤ 29 + row_offset g) ->
                 cell W r c = cell (ws g) r c)
       ∧ (∀ row col key isd,
            (row, col, key, isd) ∈ graduate_fields ->
            cell W (row + row_offset g) col
            = write_field (field_step (dict_get edu key) isd)
                          (cell (ws g) (row + row_offset g) col)).
Proof.
  intros [H1 H2]. destruct g as [W0 off]. unfold _fill_graduate.
  rewrite bool_decide_false by done.
  erewrite and_then_ok by reflexivity. run_fills H1 H2.
  eexists. split; [reflexivity|]. split; [reflexivity|].
  cbn [ws row_offset] in *. split.
  - intros r c Hr. by cell_at.
  - intros row col key isd Hin. unfold graduate_fields in Hin.
    repeat (apply elem_of_cons in Hin as [[= -> -> -> ->]|Hin]; [by cell_at|]).
    by apply elem_of_nil in Hin.
Qed.

Lemma doctoral_copy_cells W r c :
  cell (foldl (fun w i => _copy_row_style (22 + i) (31 + i) 15 w) W (py_range 0 9)) r c =
  if ((31 <=? r) && (r <=? 39)) && ((1 <=? c) && (c <=? 15)) && has_style (cell W (r - 9) c)
  then copy_style (cell W (r - 9) c) (cell W r c)
  else cell W r c.
Proof.
  rewrite (cell_copy_rows (fun i => 22 + i) 31).
  2:{ intros i j Hi%elem_of_py_range Hj%elem_of_py_range. lia. }
  replace (22 + (r - 31)) with (r - 9) by lia.
  destruct (decide (31 ≤ r ≤ 39)) as [H|H].
  - rewrite bool_decide_true by (apply elem_of_py_range; lia).
    by replace ((31 <=? r) && (r <=? 39)) with true by lia.
  - rewrite bool_decide_false by (rewrite elem_of_py_range; lia).
    by replace ((31 <=? r) && (r <=? 39)) with false by lia.
Qed.

(** Looks a cell up through the layers of the doctorate insertion. *)
Ltac decide_test t :=
  first [ replace t with false by lia | replace t with true by lia ].

Ltac cell_eval :=
  repeat first
    [ rewrite cell_upd_cell;
      match goal with
      | |- context [(?a =? ?b) && (?c =? ?d)] =>
        first [ replace (a =? b) with false by lia
              | replace (c =? d) with false by lia; rewrite andb_false_r
              | replace (a =? b) with true by lia; replace (c =? d) with true by lia ]
      end; cbn [andb]
    | rewrite cell_merge_cells
    | rewrite cell_unmerge_where
    | rewrite doctoral_copy_cells;
      match goal with
      | |- context [(31 <=? ?r) && (?r <=? 39)] =>
        decide_test ((31 <=? r) && (r <=? 39))
      end; cbn [andb]
    | rewrite cell_insert_rows;
      match goal with
      | |- context [if ?r <? ?i then _ else if ?r <? ?j then _ else _] =>
        first [ replace (r <? i) with true by lia
              | replace (r <? i) with false by lia; decide_test (r <? j) ]
      end ].

Lemma insert_doctoral_ok edu W0 :
  edu_dates_ok edu ->
  ∃ W, _insert_doctoral_section edu (mkGen W0 0) = Ok (mkGen W 9)
       ∧ (∀ r c, r < 31 -> cell W r c = cell W0 r c)
       ∧ (∀ r c, 40 ≤ r -> r ≠ 41 -> cell W r c = cell W0 (r - 9) c)
       ∧ (∀ c, ¬ (1 ≤ c ≤ 5) -> cell W 41 c = cell W0 32 c)
       ∧ (∀ c l, (c, l) ∈ work_header_labels ->
                 cell W 41 c = set_value (VStr l) (cell W0 32 c))
       ∧ (∀ i c l, (i, c, l) ∈ doctoral_block_labels ->
                   value (cell W (31 + i) c) = VStr l)
       ∧ (∀ i c key isd, (i, c, key, isd) ∈ doctoral_block_fields ->
                         value (cell W (31 + i) c) = doctoral_value edu key isd)
       ∧ mkRange 41 5 41 6 ∈ merged_cells W
       ∧ mkRange 31 1 31 6 ∈ merged_cells W.
Proof.
  intros [[H1 _]%optstr_format_date [H2 _]%optstr_format_date].
  unfold _insert_doctoral_section, doctoral_insert_rows.
  unfold and_then at 1 2 3 4 5. unfold on_ws at 1 2 3 4. unfold add_offset.
  cbn [mbind result_bind ws row_offset]. rewrite H1, H2.
  cbn [mbind result_bind for_each and_then on_ws ws row_offset].
  change (_get_actual_row {| ws := W0; row_offset := 0 |} 31) with 31.
  change (31 + 9 + 1) with 41. change (0 + 9) with 9.
  eexists. split; [reflexivity|].
  unfold doctoral_labels, doctoral_header_fix, set_text.
  split_and!.
  - intros r c Hr. by cell_eval.
  - intros r c Hr Hne. by cell_eval.
  - intros c Hc. cell_eval. by replace (41 - 9) with 32 by lia.
  - intros c l Hin. unfold work_header_labels in Hin.
    repeat (apply elem_of_cons in Hin as [[= -> ->]|Hin]; [by cell_eval|]).
    by apply elem_of_nil in Hin.
  - intros i c l Hin. unfold doctoral_block_labels in Hin.
    repeat (apply elem_of_cons in Hin as [[= -> -> ->]|Hin]; [by cell_eval|]).
    by apply elem_of_nil in Hin.
  - intros i c key isd Hin. unfold doctoral_block_fields in Hin.
    repeat (apply elem_of_cons in Hin as [[= -> -> -> ->]|Hin];
            [cell_eval; unfold write_doctoral, doctoral_value;
             by destruct (_ || _)|]).
    by apply elem_of_nil in Hin.
  - rewrite !merged_upd_cell. apply merged_merge_cells_old.
    rewrite merged_copy_rows, !merged_upd_cell. apply merged_merge_cells_new.
  - rewrite !merged_upd_cell. apply merged_merge_cells_new.
Qed.

(** The classification of a list whose labels can all be tested: each
    slot holds an entry of its tier taken from the list, and is empty only if
    the list has no entry of that tier. *)
Lemma classify_from_spec acc l :
  Forall classifiable l ->
  ∃ slots, classify_from acc l = Ok slots
           ∧ ∀ t, (slot t slots = slot t acc
                   ∧ Forall (fun x => tier_of x ≠ Ok (Some t)) l)
                  ∨ (∃ e, slot t slots = Some e ∧ e ∈ l ∧ tier_of e = Ok (Some t)).
Proof.
  intros H. revert acc. induction H as [|x l [tx Hx] _ IH]; intros acc; simpl.
  - exists acc. split; [done|]. intros t. left. by split.
  - rewrite classify_step_tier, Hx. simpl.
    destruct (IH (put tx x acc)) as (slots & -> & Hs).
    exists slots. split; [done|]. intros t.
    destruct (Hs t) as [[Hsame Hnone]|(e & He & Hin & Ht)].
    + destruct (decide (tx = Some t)) as [->|Hne].
      * right. exists x. rewrite Hsame, slot_put_same. split_and!; [done|set_solver|done].
      * left. rewrite Hsame, slot_put_other by done. split; [done|].
        constructor; [congruence|done].
    + right. exists e. split_and!; [done|set_solver|done].
Qed.

Lemma slot_of_tier l t e0 :
  Forall classifiable l -> e0 ∈ l -> tier_of e0 = Ok (Some t) ->
  ∃ slots e, classify l = Ok slots ∧ slot t slots = Some e ∧ e ∈ l
             ∧ tier_of e = Ok (Some t).
Proof.
  intros Hl Hin Ht. destruct (classify_from_spec (None, None, None) l Hl) as (slots & Hc & Hs).
  destruct (Hs t) as [[_ Hnone]|(e & He & Hine & Hte)].
  - rewrite Forall_forall in Hnone. by destruct (Hnone e0 Hin).
  - by exists slots, e.
Qed.

Lemma graduate_fields_rows row col key isd :
  (row, col, key, isd) ∈ graduate_fields -> 23 ≤ row ≤ 29.
Proof.
  unfold graduate_fields. intros Hin.
  repeat (apply elem_of_cons in Hin as [[= -> -> -> ->]|Hin]; [lia|]).
  by apply elem_of_nil in Hin.
Qed.




End Education.

(** ** The repeating sections *)

Section Repeating.

(** The row loop: each entry of the list is written on its own row. *)
Lemma rows_ok (write_row : Z -> dict -> step) (text : dict -> Z -> option pyval) :
  (∀ row exp g, dates_ok exp ->
     ∃ w', write_row row exp g = Ok (mkGen w' (row_offset g))
           ∧ merged_cells w' = merged_cells (ws g)
           ∧ ∀ r c, cell w' r c =
                    if r =? row then row_cell (text exp c) (cell (ws g) r c)
                    else cell (ws g) r c) ->
  ∀ l k first g,
    Forall dates_ok l ->
    ∃ w', for_each (zip (seqZ k (Z.of_nat (length l))) l)
                   (fun '(i, exp) => write_row (first + i) exp) g
          = Ok (mkGen w' (row_offset g))
          ∧ merged_cells w' = merged_cells (ws g)
          ∧ ∀ r c, cell w' r c = written_cell text l (first + k) (cell (ws g)) r c.
Proof.
  intros Hrow l. induction l as [|exp l IH]; intros k first g Hl.
  - exists (ws g). destruct g. split_and!; try done.
    intros r c. unfold written_cell, row_entry. by destruct (_ <=? _).
  - apply Forall_cons in Hl as [Hexp Hl].
    rewrite seqZ_cons by (simpl; lia). simpl zip. cbn [for_each].
    destruct (Hrow (first + k) exp g Hexp) as (w1 & E1 & M1 & C1).
    erewrite and_then_ok by exact E1.
    replace (Z.pred (Z.of_nat (S (length l)))) with (Z.of_nat (length l)) by lia.
    destruct (IH (Z.succ k) first (mkGen w1 (row_offset g)) Hl) as (w2 & E2 & M2 & C2).
    exists w2. cbn [ws row_offset] in *. split_and!; [done|congruence|].
    intros r c. rewrite C2. unfold written_cell, row_entry, Z.succ. rewrite !C1.
    destruct (Z.eqb_spec r (first + k)) as [->|Hne].
    + replace (first + (k + 1) <=? first + k) with false by lia.
      replace (first + k <=? first + k) with true by lia.
      by replace (first + k - (first + k)) with 0 by lia.
    + destruct (Z.leb_spec (first + (k + 1)) r).
      * replace (first + k <=? r) with true by lia.
        replace (Z.to_nat (r - (first + k))) with (S (Z.to_nat (r - (first + (k + 1)))))
          by lia. done.
      * replace (first + k <=? r) with false by lia. done.
Qed.

Lemma enumerate_rows {A} (l : list A) : enumerate l = zip (seqZ 0 (Z.of_nat (length l))) l.
Proof. reflexivity. Qed.

Lemma row_entry_lookup l first r :
  row_entry l first r = (if (first <=? r) && (r <? first + Z.of_nat (length l))
                         then l !! Z.to_nat (r - first) else None).
Proof.
  unfold row_entry. destruct (Z.leb_spec first r); simpl; [|done].
  destruct (Z.ltb_spec r (first + Z.of_nat (length l))); [done|].
  apply lookup_ge_None. lia.
Qed.

(** The insertion blocks.  The new rows take the style of the first
    example row, the rows below move down, the merged ranges stay. *)
Lemma copy_into_inserted W first count r c :
  0 ≤ count ->
  cell (foldl (fun w i => _copy_row_style first (first + 2 + i) 15 w)
              (insert_rows (first + 2) count W) (py_range 0 count)) r c
  = grown_cell W first count r c.
Proof.
  intros Hc. rewrite (cell_copy_rows (fun _ => first) (first + 2)).
  2:{ intros i j _ Hj%elem_of_py_range. lia. }
  rewrite !cell_insert_rows. unfold grown_cell, inserted_cell.
  replace (first <? first + 2) with true by lia.
  destruct (Z.ltb_spec r (first + 2)).
  - rewrite bool_decide_false by (rewrite elem_of_py_range; lia). done.
  - destruct (Z.ltb_spec r (first + 2 + count)).
    + rewrite bool_decide_true by (apply elem_of_py_range; lia). done.
    + rewrite bool_decide_false by (rewrite elem_of_py_range; lia). done.
Qed.

Lemma work_insert_rows_ok first count W off :
  0 ≤ count ->
  ∃ W', work_insert_rows first 2 count (mkGen W off) = Ok (mkGen W' (off + count))
        ∧ merged_cells W' = merged_cells W
        ∧ ∀ r c, cell W' r c = grown_cell W first count r c.
Proof.
  intros Hc. eexists. split; [reflexivity|]. cbn [ws]. split.
  - by rewrite merged_copy_rows.
  - intros r c. by apply copy_into_inserted.
Qed.

Lemma project_insert_rows_ok first count W off :
  0 ≤ count ->
  ∃ W', project_insert_rows first 2 count (mkGen W off) = Ok (mkGen W' (off + count))
        ∧ merged_cells W' = filter (fun mr => min_row mr < first + 2) (merged_cells W)
        ∧ ∀ r c, cell W' r c = grown_cell W first count r c.
Proof.
  intros Hc. eexists. split; [reflexivity|]. cbn [ws]. split.
  - rewrite merged_copy_rows, merged_insert_rows, unmerge_where_eq. simpl.
    apply filter_ext_in. intros x _. lia.
  - intros r c. rewrite unmerge_where_eq.
    by rewrite (copy_into_inserted (mkSheet (cells W) _)).
Qed.

Lemma written_cell_ext text l first (base base' : Z -> Z -> Cell) r c :
  base r c = base' r c -> written_cell text l first base r c = written_cell text l first base' r c.
Proof. intros H. unfold written_cell. by rewrite H. Qed.

Lemma for_each_enumerate_rows (write_row : Z -> dict -> step) text :
  (∀ row exp g, dates_ok exp ->
     ∃ w', write_row row exp g = Ok (mkGen w' (row_offset g))
           ∧ merged_cells w' = merged_cells (ws g)
           ∧ ∀ r c, cell w' r c =
                    if r =? row then row_cell (text exp c) (cell (ws g) r c)
                    else cell (ws g) r c) ->
  ∀ l first W off,
    Forall dates_ok l ->
    ∃ W', for_each (enumerate l) (fun '(i, exp) => write_row (first + i) exp) (mkGen W off)
          = Ok (mkGen W' off)
          ∧ merged_cells W' = merged_cells W
          ∧ ∀ r c, cell W' r c = written_cell text l first (cell W) r c.
Proof.
  intros Hrow l first W off Hl.
  destruct (rows_ok write_row text Hrow l 0 first (mkGen W off) Hl) as (W' & E & M & C).
  exists W'. rewrite enumerate_rows. split_and!; [done|done|].
  intros r c. rewrite C. cbn [ws]. by rewrite Z.add_0_r.
Qed.

(** The work-history filler with more entries than example rows. *)
Lemma fill_work_grows data W off :
  let l := work_experience data in
  let n := Z.of_nat (length l) in
  2 < n ->
  Forall dates_ok l ->
  ∃ W', fill_work_experience data (mkGen W off) = Ok (mkGen W' (off + (n - 2)))
        ∧ merged_cells W' = merged_cells (work_unmerge_data (33 + off) n W)
        ∧ ∀ r c, cell W' r c
                 = written_cell work_text l (33 + off) (grown_cell W (33 + off) (n - 2)) r c.
Proof.
  intros l n Hn Hl. unfold fill_work_experience. fold l. fold n.
  rewrite bool_decide_false by (intros E; unfold n in Hn; rewrite E in Hn; simpl in Hn; lia).
  cbn [_get_actual_row row_offset].
  replace (Z.max 0 (n - 2)) with (n - 2) by lia.
  replace (0 <? n - 2) with true by lia.
  replace (n <? 2) with false by lia.
  destruct (work_insert_rows_ok (33 + off) (n - 2) W off) as (W1 & E1 & M1 & C1); [lia|].
  erewrite and_then_ok by exact E1.
  erewrite and_then_ok by reflexivity. cbn [ws row_offset].
  destruct (for_each_enumerate_rows write_work_row work_text write_work_row_ok l (33 + off)
              (work_unmerge_data (33 + off) n W1) (off + (n - 2)) Hl) as (W2 & E2 & M2 & C2).
  erewrite and_then_ok by exact E2.
  exists W2. split_and!; [done| |].
  - rewrite M2. unfold work_unmerge_data. rewrite !unmerge_where_eq. simpl. by rewrite M1.
  - intros r c. rewrite C2. apply written_cell_ext.
    unfold work_unmerge_data. by rewrite cell_unmerge_where.
Qed.

Lemma fill_project_grows data W off :
  let l := project_experience data in
  let n := Z.of_nat (length l) in
  2 < n ->
  Forall dates_ok l ->
  ∃ W', fill_project_experience data (mkGen W off) = Ok (mkGen W' (off + (n - 2)))
        ∧ merged_cells W' = filter (fun mr => min_row mr < 38 + off + 2) (merged_cells W)
        ∧ ∀ r c, cell W' r c
                 = written_cell project_text l (38 + off) (grown_cell W (38 + off) (n - 2)) r c.
Proof.
  intros l n Hn Hl. unfold fill_project_experience. fold l. fold n.
  rewrite bool_decide_false by (intros E; unfold n in Hn; rewrite E in Hn; simpl in Hn; lia).
  cbn [_get_actual_row row_offset].
  replace (Z.max 0 (n - 2)) with (n - 2) by lia.
  replace (0 <? n - 2) with true by lia.
  destruct (project_insert_rows_ok (38 + off) (n - 2) W off) as (W1 & E1 & M1 & C1); [lia|].
  erewrite and_then_ok by exact E1.
  destruct (for_each_enumerate_rows write_project_row project_text write_project_row_ok
              l (38 + off) W1 (off + (n - 2)) Hl) as (W2 & E2 & M2 & C2).
  exists W2. split_and!; [exact E2|congruence|].
  intros r c. rewrite C2. by apply written_cell_ext.
Qed.

Lemma written_cell_row text l first base i exp c :
  l !! i = Some exp ->
  written_cell text l first base (first + Z.of_nat i) c
  = row_cell (text exp c) (base (first + Z.of_nat i) c).
Proof.
  intros H. unfold written_cell, row_entry.
  destruct (Z.leb_spec first (first + Z.of_nat i)); [|lia].
  replace (Z.to_nat (first + Z.of_nat i - first)) with i by lia. by rewrite H.
Qed.

Lemma written_cell_outside text l first base r c :
  ¬ (first ≤ r < first + Z.of_nat (length l)) ->
  written_cell text l first base r c = base r c.
Proof.
  intros H. unfold written_cell. rewrite row_entry_lookup.
  destruct (Z.leb_spec first r), (Z.ltb_spec r (first + Z.of_nat (length l)));
    simpl; try done. lia.
Qed.


Lemma entry_from_dates_ok start : dates_ok (entry_from start).
Proof. split; [by exists (Some (py start))|by exists None]. Qed.

Lemma five_entries_dates_ok : Forall dates_ok five_entries.
Proof. repeat constructor; apply entry_from_dates_ok. Qed.



(** *** Merged ranges across an insertion *)

Lemma doctoral_insert_rows_merged pos W off :
  ∃ W', doctoral_insert_rows pos 9 (pos + 10) (mkGen W off) = Ok (mkGen W' (off + 9))
        ∧ merged_cells W'
          = merged_cells (merge_cells (mkRange (pos + 10) 5 (pos + 10) 6)
              (mkSheet (cells W)
                 (filter (fun mr => ¬ spans_header (pos + 10) mr) (merged_cells W)))).
Proof.
  eexists. split; [reflexivity|]. cbn [ws].
  unfold doctoral_header_fix, set_text. rewrite !merged_upd_cell.
  rewrite unmerge_where_eq. cbn [merged_cells insert_rows cells].
  unfold merge_cells. cbn [merged_cells cells].
  assert (filter (fun mr => (min_row mr =? pos + 10) && ((min_col mr =? 1) && (3 <=? max_col mr)) = false)
                 (merged_cells W)
          = filter (fun mr => ¬ spans_header (pos + 10) mr) (merged_cells W)) as ->; [|done].
  apply filter_ext_in. intros x _. unfold spans_header.
  destruct (Z.eqb_spec (min_row x) (pos + 10)), (Z.eqb_spec (min_col x) 1),
    (Z.leb_spec 3 (max_col x)); simpl; split; intros; try done; try tauto; lia.
Qed.


Lemma sample_template_NoDup : NoDup (merged_cells sample_template).
Proof. refine (bool_decide_unpack _ _). by vm_compute. Qed.



(** The work-history insertion of one row at row 35 leaves the same range
    on row 42. *)
Example work_insertion_keeps_range :
  match work_insert_rows 33 2 1 (init sample_template) with
  | Ok g' =>
    mkRange 42 2 42 6 ∈ merged_cells (ws g')
    ∧ ¬ (mkRange 43 2 43 6 ∈ merged_cells (ws g'))
  | Raise _ => False
  end.
Proof.
  vm_compute. split; [repeat constructor|].
  intros H; repeat (inversion H as [|? ? ? H']; clear H; rename H' into H).
Qed.

(** *** Fewer entries than example rows *)

Ltac cell_at :=
  repeat (rewrite cell_upd_cell;
          match goal with
          | |- context [(?a =? ?b) && (?c =? ?d)] =>
            first [ replace (a =? b) with false by lia
                  | replace (c =? d) with false by lia; rewrite andb_false_r
                  | replace (a =? b) with true by lia; replace (c =? d) with true by lia ]
          end; cbn [andb]).

Lemma fill_work_single data exp W off :
  work_experience data = [exp] ->
  dates_ok exp ->
  ∃ W', fill_work_experience data (mkGen W off) = Ok (mkGen W' off)
        ∧ ∀ r c, cell W' r c =
                 if r =? 33 + off then row_cell (work_text exp c) (cell W r c)
                 else if (r =? 33 + off + 1) && ((1 <=? c) && (c <=? 5))
                      then set_value VNone (cell W r c)
                      else cell W r c.
Proof.
  intros Hl Hexp. unfold fill_work_experience. rewrite Hl.
  rewrite bool_decide_false by done.
  unfold _get_actual_row. cbn [row_offset length].
  change (Z.max 0 (Z.of_nat 1 - 2)) with 0. change (0 <? 0) with false.
  change (Z.of_nat 1 <? 2) with true. cbv iota.
  erewrite and_then_ok by reflexivity.
  erewrite and_then_ok by reflexivity. cbn [ws row_offset].
  change (enumerate [exp]) with [(0, exp)]. cbn [for_each].
  destruct (write_work_row_ok (33 + off + 0) exp
              (mkGen (work_unmerge_data (33 + off) (Z.of_nat 1) W) off) Hexp)
    as (W1 & E1 & _ & C1).
  erewrite and_then_ok by (erewrite and_then_ok by exact E1; reflexivity).
  eexists. split; [reflexivity|]. cbn [ws] in *.
  assert (∀ r c, cell W1 r c = if r =? 33 + off then row_cell (work_text exp c) (cell W r c)
                               else cell W r c) as C1'.
  { intros r c. rewrite C1. unfold work_unmerge_data. rewrite cell_unmerge_where.
    by replace (33 + off + 0) with (33 + off) by lia. }
  clear C1. intros r c. unfold work_blank_unused.
  change (py_range (Z.of_nat 1) 2) with [1]. change (py_range 1 6) with [1; 2; 3; 4; 5].
  cbn [foldl].
  destruct (Z.eqb_spec r (33 + off)) as [->|Hne].
  { cell_at. by rewrite C1', Z.eqb_refl. }
  destruct (Z.eqb_spec r (33 + off + 1)) as [->|Hne']; cbn [andb].
  - destruct (decide (1 ≤ c ≤ 5)) as [Hc|Hc].
    + replace ((1 <=? c) && (c <=? 5)) with true by lia.
      assert (c = 1 ∨ c = 2 ∨ c = 3 ∨ c = 4 ∨ c = 5) as Hcases by lia.
      destruct Hcases as [->|[->|[->|[->| ->]]]]; cell_at; rewrite C1';
        by replace (33 + off + 1 =? 33 + off) with false by lia.
    + replace ((1 <=? c) && (c <=? 5)) with false by lia.
      cell_at. rewrite C1'. by replace (33 + off + 1 =? 33 + off) with false by lia.
  - cell_at. rewrite C1'. by replace (r =? 33 + off) with false by lia.
Qed.




(** The project filler has no clearing step: with one project the second
    example row keeps its text. *)
Example project_example_row_left :
  match fill_project_experience (with_projects [entry_from "2020-06"]) (init sample_template) with
  | Ok g' =>
    row_offset g' = 0
    ∧ value (cell (ws g') 38 1) = VStr (py "2020-06-01")
    ∧ value (cell (ws g') 39 1) = VStr (py "YYYY-MM-DD")
  | Raise _ => False
  end.
Proof. vm_compute. by split_and!. Qed.

End Repeating.

(** ** The drivers *)

Section Drivers.

(** The command-line driver and the generator's [main] stop at the error
    key: the message carries the payload, no file is written, and the result
    does not depend on the template, which is never loaded into a generator. *)
Lemma error_key_stops_cli_drivers :
  (∀ env files (tpl : Worksheet) text err,
     file_exists env = true ->
     suffix env ∈ SUPPORTED_FORMATS ->
     template env = Some tpl ->
     extract_text_from_resume env = Ok text ->
     error (parse_resume_with_llm env text) = Some err ->
     process_single_resume env files = ((false, py "解析失败: " ++ err), files))
  ∧ (∀ resume_data tpl excel err,
       error resume_data = Some err ->
       generator_main resume_data tpl excel
       = Ok ([py "❌ 解析数据包含错误: " ++ err], excel)).
Proof.
  split.
  - intros env files tpl text err He Hs Ht Hx Herr.
    unfold process_single_resume. rewrite He, Ht, Hx, Herr. simpl.
    by rewrite bool_decide_true.
  - intros resume_data tpl excel err Herr. unfold generator_main. by rewrite Herr.
Qed.

(** A failure of [process_single_resume] never leaves an Excel file. *)
Lemma failure_writes_no_excel env files :
  (process_single_resume env files).1.1 = false ->
  excel_file (process_single_resume env files).2 = excel_file files.
Proof.
  unfold process_single_resume.
  destruct (file_exists env); simpl; [|done].
  case_bool_decide; simpl; [|done].
  destruct (template env); [|done].
  destruct (extract_text_from_resume env); [|done].
  destruct (error _); [done|].
  by destruct (generate _ _).
Qed.

(** C8, at the failing input.  The desktop driver has no test for the
    error key: for a parse result that is an error record it runs the
    compositor, stores the generated sheet and reports the task as completed,
    where the command-line driver on the same input stops with the error
    payload and writes nothing. *)
Theorem desktop_driver_composes_error_record :
  let err := py "JSON 解析失败" in
  let env := failing_env err in
  error (parse_resume_with_llm env (py "text of the resume")) = Some err
  ∧ process_single_resume env no_files = ((false, py "解析失败: " ++ err), no_files)
  ∧ match process_single_task env (py "处理完成") new_task with
    | mkTask status _ _ _ (Some saved) =>
      status = Completed
      ∧ value (cell saved 3 2) = VStr PLACEHOLDER
      ∧ value (cell sample_template 3 2) = VNone
    | _ => False
    end.
Proof. vm_compute. by split_and!. Qed.

End Drivers.
